(** * MemeWaveAI plugins: a shallow embedding of the eliza adapters

  The development follows the four source files of the repository:
  the XMTP bootstrap, the GOAT plugin factory, the Birdeye caching
  provider and the Avalanche [SWAP_TOKEN] action.  JavaScript values are
  an inductive type, promises are run to completion in a small state and
  exception monad, and every call that leaves the process (HTTP, the two
  cache tiers, the vendor SDKs) is recorded in an event trace. *)

From Stdlib Require Import ZArith QArith Qround Ascii String List Lia.
From stdpp Require Import base option gmap strings list pretty.

Set Warnings "-register-all".
Close Scope Q_scope.
Local Open Scope Z_scope.

(** ** JavaScript values

    Numbers are the integers and [NaN]; the values that are passed around
    here are identifiers, amounts and JSON data. *)

Module Js.

Inductive JsValue : Type :=
| JUndefined
| JNull
| JBool (b : bool)
| JNum (n : Z)
| JNaN
| JStr (s : string)
| JArr (xs : list JsValue)
| JObj (fields : list (string * JsValue)).

(** [if (v)]: the values that JavaScript coerces to [true]. *)
Definition truthy (v : JsValue) : bool :=
  match v with
  | JUndefined | JNull => false
  | JBool b => b
  | JNum n => negb (n =? 0)
  | JNaN => false
  | JStr s => negb (String.eqb s "")
  | JArr _ | JObj _ => true
  end.

Definition falsy (v : JsValue) : bool := negb (truthy v).

(** The [typeof] operator. *)
Definition typeof (v : JsValue) : string :=
  match v with
  | JUndefined => "undefined"
  | JNull => "object"
  | JBool _ => "boolean"
  | JNum _ => "number"
  | JNaN => "number"
  | JStr _ => "string"
  | JArr _ | JObj _ => "object"
  end.

(** Conversion to string, as a template literal performs it. *)
Fixpoint to_string (v : JsValue) : string :=
  match v with
  | JUndefined => "undefined"
  | JNull => "null"
  | JBool true => "true"
  | JBool false => "false"
  | JNum n => pretty n
  | JNaN => "NaN"
  | JStr s => s
  | JArr xs =>
      String.concat ","
        (map (fun x => match x with
                       | JUndefined | JNull => ""
                       | _ => to_string x
                       end) xs)
  | JObj _ => "[object Object]"
  end.

(** [JSON.parse(JSON.stringify({ value: v })).value]: what comes back of
    a value that was stored as JSON text.  A property that holds
    [undefined] is left out of the text, so it reads back as [undefined];
    [NaN] is written as [null]; inside an array [undefined] is written as
    [null] too. *)
Fixpoint JSON_roundtrip (v : JsValue) : JsValue :=
  match v with
  | JNaN => JNull
  | JArr xs =>
      JArr (map (fun x => match x with
                          | JUndefined => JNull
                          | _ => JSON_roundtrip x
                          end) xs)
  | JObj fields =>
      JObj ((fix members (fs : list (string * JsValue)) :=
               match fs with
               | [] => []
               | (k, x) :: rest =>
                   match x with
                   | JUndefined => members rest
                   | _ => (k, JSON_roundtrip x) :: members rest
                   end
               end) fields)
  | _ => v
  end.

(** Thrown values. *)
Inductive Exn : Type :=
| Error (msg : string)
| TypeError (msg : string).

(** The outcome of running a piece of code: a value or a thrown error. *)
Inductive Completion (A : Type) : Type :=
| Normal (a : A)
| Throw (e : Exn).
Arguments Normal {A} a.
Arguments Throw {A} e.

(** Property lookup on an association list, first binding wins. *)
Fixpoint assoc (k : string) (fs : list (string * JsValue)) : JsValue :=
  match fs with
  | [] => JUndefined
  | (k', v) :: rest => if String.eqb k k' then v else assoc k rest
  end.

(** [v.k]: reading a property of [null] or [undefined] throws, a
    primitive has no own data properties of the names used here. *)
Definition get_field (v : JsValue) (k : string) : Completion JsValue :=
  match v with
  | JUndefined | JNull =>
      Throw (TypeError ("Cannot read properties of " +:+ to_string v))
  | JObj fs => Normal (assoc k fs)
  | _ => Normal JUndefined
  end.

End Js.

(** ** [path.join] of Node (POSIX flavour) *)

Module Path.

Definition slash : ascii := "/"%char.

(** [s.split("/")]. *)
Fixpoint split_slash (s : string) : list string :=
  match s with
  | EmptyString => [""]
  | String c s' =>
      if Ascii.eqb c slash then "" :: split_slash s'
      else match split_slash s' with
           | seg :: rest => String c seg :: rest
           | [] => [String c ""]
           end
  end.

(** One step of [normalizeString]: the stack holds the segments kept so
    far, innermost first. *)
Definition push_segment (allowAboveRoot : bool)
           (stack : list string) (seg : string) : list string :=
  if String.eqb seg "" then stack
  else if String.eqb seg "." then stack
  else if String.eqb seg ".." then
    match stack with
    | top :: below =>
        if String.eqb top ".." then
          (if allowAboveRoot then seg :: stack else stack)
        else below
    | [] => if allowAboveRoot then [seg] else []
    end
  else seg :: stack.

Definition normalizeString (p : string) (allowAboveRoot : bool) : string :=
  String.concat "/"
    (rev (fold_left (push_segment allowAboveRoot) (split_slash p) [])).

Definition starts_with_slash (s : string) : bool :=
  match s with
  | String c _ => Ascii.eqb c slash
  | EmptyString => false
  end.

Fixpoint ends_with_slash (s : string) : bool :=
  match s with
  | EmptyString => false
  | String c EmptyString => Ascii.eqb c slash
  | String _ s' => ends_with_slash s'
  end.

Definition normalize (p : string) : string :=
  if String.eqb p "" then "."
  else
    let isAbsolute := starts_with_slash p in
    let trailingSeparator := ends_with_slash p in
    let q := normalizeString p (negb isAbsolute) in
    if String.eqb q "" then
      (if isAbsolute then "/" else if trailingSeparator then "./" else ".")
    else
      let q' := if trailingSeparator then q +:+ "/" else q in
      if isAbsolute then "/" +:+ q' else q'.

(** [path.join(a, b)]: empty arguments are skipped. *)
Definition join (a b : string) : string :=
  if String.eqb a "" then
    (if String.eqb b "" then "." else normalize b)
  else if String.eqb b "" then normalize a
  else normalize (a +:+ "/" +:+ b).

(** A key none of whose segments is [".."]. *)
Definition no_dotdot (key : string) : Prop :=
  Forall (fun seg => seg ≠ "..") (split_slash key).

(** [path] is the namespace directory [ns] itself or lies below it. *)
Definition in_namespace (ns path : string) : bool :=
  String.eqb path ns || String.prefix (ns +:+ "/") path.

End Path.

(** ** Promises run to completion

    A computation takes the state and gives a completion and the state it
    leaves behind (also when it throws). *)

Module Eff.

Import Js.

Definition M (S A : Type) : Type := S → Completion A * S.

Definition ret {S A} (a : A) : M S A := λ s, (Normal a, s).

Definition throw {S A} (e : Exn) : M S A := λ s, (Throw e, s).

Definition bind {S A B} (m : M S A) (k : A → M S B) : M S B :=
  λ s, match m s with
       | (Normal a, s') => k a s'
       | (Throw e, s') => (Throw e, s')
       end.

(** [try { m } catch (error) { h error }]. *)
Definition try_catch {S A} (m : M S A) (h : Exn → M S A) : M S A :=
  λ s, match m s with
       | (Normal a, s') => (Normal a, s')
       | (Throw e, s') => h e s'
       end.

Definition lift {S A} (c : Completion A) : M S A := λ s, (c, s).

Notation "'let!' x ':=' m 'in' k" := (bind m (λ x, k))
  (at level 10, x name, m at level 100, k at level 200).
Notation "'do!' m 'in' k" := (bind m (λ _, k))
  (at level 10, m at level 100, k at level 200).

End Eff.

(** ** [node-cache]: the in-memory tier

    An entry carries its value and the instant [t] (milliseconds) after
    which it is dead; [t = 0] means that it never expires. *)

Module NodeCache.

Record t : Type := mk { stdTTL : Z; data : gmap string (Js.JsValue * Z) }.

(** [new NodeCache({ stdTTL })]. *)
Definition create (ttl : Z) : t := {| stdTTL := ttl; data := ∅ |}.

(** [_wrap(value, ttl)] for a [set] without a [ttl] argument. *)
Definition wrap (c : t) (now : Z) (value : Js.JsValue) : Js.JsValue * Z :=
  (value, if stdTTL c =? 0 then 0 else now + stdTTL c * 1000).

Definition set (c : t) (now : Z) (key : string) (value : Js.JsValue) : t :=
  {| stdTTL := stdTTL c; data := <[key := wrap c now value]> (data c) |}.

(** [_check]: an entry is alive unless [t !== 0 && t < Date.now()]. *)
Definition alive (now : Z) (entry : Js.JsValue * Z) : bool :=
  negb (negb (snd entry =? 0) && (snd entry <? now)).

(** [get(key)]: [undefined] on a miss; a dead entry is deleted. *)
Definition get (c : t) (now : Z) (key : string) : Js.JsValue * t :=
  match data c !! key with
  | Some entry =>
      if alive now entry then (fst entry, c)
      else (Js.JUndefined, {| stdTTL := stdTTL c; data := delete key (data c) |})
  | None => (Js.JUndefined, c)
  end.

End NodeCache.

(** ** [ICacheManager]: the file-backed tier

    The interface and its implementation are eliza's; the provider only
    uses [get] and [set] with an [expires] option.  [set] stores the text
    [JSON.stringify({ value, expires })], so an entry holds what that text
    parses to.  [get] gives the value of an entry whose [expires] is [0]
    or still in the future; it deletes a dead entry, and on a miss it
    resolves to [undefined] (the [null] in the result type that
    [readFsCache] declares is an annotation only). *)

Module CacheManager.

Definition set (store : gmap string (Js.JsValue * Z))
           (path : string) (value : Js.JsValue) (expires : Z)
  : gmap string (Js.JsValue * Z) :=
  <[path := (Js.JSON_roundtrip value, expires)]> store.

Definition alive (now : Z) (entry : Js.JsValue * Z) : bool :=
  (snd entry =? 0) || (now <? snd entry).

Definition get (store : gmap string (Js.JsValue * Z)) (now : Z) (path : string)
  : Js.JsValue * gmap string (Js.JsValue * Z) :=
  match store !! path with
  | Some entry =>
      if alive now entry then (fst entry, store)
      else (Js.JUndefined, delete path store)
  | None => (Js.JUndefined, store)
  end.

End CacheManager.

(** ** The Birdeye provider (src/unnamed/part_001) *)

Module Birdeye.

Import Js Eff.

Definition DEFAULT_MAX_RETRIES : Q := 3.

Definition DEFAULT_SUPPORTED_SYMBOLS : gmap string string :=
  list_to_map
    [ ("SOL", "So11111111111111111111111111111111111111112");
      ("BTC", "qfnqNqs3nCAHjnyCgLRDbBtq4p2MtHZxw8YjSyYhPoL");
      ("ETH", "7vfCXTUXx5WJV5JADk17DUJ4ksgau7utNKj4b963voxs");
      ("Example", "2weMjPLLybRMMva1fM3U31goWWrCpF59CHWNhnCJ9Vyh") ].

Definition API_BASE_URL : string := "https://public-api.birdeye.so".

Definition ENDPOINT_MAP : list (string * string) :=
  [ ("price", "/defi/price?address=");
    ("security", "/defi/token_security?address=");
    ("volume", "/defi/v3/token/trade-data/single?address=");
    ("portfolio", "/v1/wallet/token_list?wallet=") ].

Definition RETRY_DELAY_MS : Z := 2000.

(** A [Response]: [ok], [status] and what [text()] and [json()] settle to. *)
Record Response : Type :=
  { ok : bool;
    status : Z;
    text : Completion string;
    json : Completion JsValue }.

(** What one call of [fetch] meets: the promise rejects or resolves. *)
Inductive Outcome : Type :=
| FetchRejects (e : Exn)
| FetchResolves (resp : Response).

Inductive Event : Type :=
| EvMemGet (key : string)
| EvMemSet (key : string) (value : JsValue)
| EvFsGet (path : string)
| EvFsSet (path : string) (value : JsValue) (expires : Z)
| EvFetch (url : string) (headers : list (string * string))
| EvWait (ms : Z)
| EvConsole (level : string) (msg : string).

(** The [settings] object of eliza, as far as the provider reads it. *)
Record Settings : Type :=
  { BIRDEYE_CHAIN : option string; BIRDEYE_API_KEY : option string }.

(** Everything the provider can read or change: the clock behind
    [Date.now()], the [NodeCache] of the instance, the store behind the
    cache manager, the responses the network will give (in order), and
    the trace of what was done so far, oldest first. *)
Record State : Type :=
  { clock : Z;
    cache : NodeCache.t;
    cacheManager : gmap string (JsValue * Z);
    settings : Settings;
    network : list Outcome;
    trace : list Event }.

(** Computations of the provider. *)
Definition M (A : Type) : Type := Eff.M State A.

Definition emit (e : Event) : M unit :=
  λ s, (Normal tt,
        {| clock := clock s; cache := cache s; cacheManager := cacheManager s;
           settings := settings s; network := network s;
           trace := trace s ++ [e] |}).

Definition set_cache (c : NodeCache.t) : M unit :=
  λ s, (Normal tt,
        {| clock := clock s; cache := c; cacheManager := cacheManager s;
           settings := settings s; network := network s; trace := trace s |}).

Definition set_cacheManager (m : gmap string (JsValue * Z)) : M unit :=
  λ s, (Normal tt,
        {| clock := clock s; cache := cache s; cacheManager := m;
           settings := settings s; network := network s; trace := trace s |}).

Definition Date_now : M Z := λ s, (Normal (clock s), s).

(** [waitFor(ms)]: the timer fires after [ms] milliseconds. *)
Definition waitFor (ms : Z) : M unit :=
  λ s, (Normal tt,
        {| clock := clock s + ms; cache := cache s;
           cacheManager := cacheManager s; settings := settings s;
           network := network s; trace := trace s ++ [EvWait ms] |}).

(** *** BaseCachedProvider *)

Record Provider : Type :=
  { cacheKey : string;
    symbolMap : gmap string string;
    maxRetries : Q }.

(** [ttl || 300]. *)
Definition ttl_or_default (ttl : option Z) : Z :=
  match ttl with
  | Some n => if n =? 0 then 300 else n
  | None => 300
  end.

(** The constructor of [BaseCachedProvider]: a fresh [NodeCache]. *)
Definition BaseCachedProvider_new (ttl : option Z) : M unit :=
  set_cache (NodeCache.create (ttl_or_default ttl)).

Definition cache_get (key : string) : M JsValue :=
  λ s, let '(v, c) := NodeCache.get (cache s) (clock s) key in
       (do! emit (EvMemGet key) in do! set_cache c in ret v) s.

Definition cache_set (key : string) (value : JsValue) : M unit :=
  λ s, (do! emit (EvMemSet key value) in
        set_cache (NodeCache.set (cache s) (clock s) key value)) s.

Definition cacheManager_get (path : string) : M JsValue :=
  λ s, let '(v, m) := CacheManager.get (cacheManager s) (clock s) path in
       (do! emit (EvFsGet path) in do! set_cacheManager m in ret v) s.

Definition cacheManager_set (path : string) (value : JsValue) (expires : Z)
  : M unit :=
  λ s, (do! emit (EvFsSet path value expires) in
        set_cacheManager
          (CacheManager.set (cacheManager s) path value expires)) s.

Definition readFsCache (this : Provider) (key : string) : M JsValue :=
  cacheManager_get (Path.join (cacheKey this) key).

Definition writeFsCache (this : Provider) (key : string) (data : JsValue)
  : M unit :=
  let! now := Date_now in
  cacheManager_set (Path.join (cacheKey this) key) data (now + 5 * 60 * 1000).

Definition readFromCache (this : Provider) (key : string) : M JsValue :=
  let! val := cache_get key in
  if truthy val then ret val
  else
    let! fsVal := readFsCache this key in
    do! (if truthy fsVal then cache_set key fsVal else ret tt) in
    ret fsVal.

Definition writeToCache (this : Provider) (key : string) (val : JsValue)
  : M unit :=
  do! cache_set key val in
  writeFsCache this key val.

(** *** BirdeyeProvider *)

(** [symbolMap || DEFAULT_SUPPORTED_SYMBOLS] and
    [maxRetries || DEFAULT_MAX_RETRIES]; the super call passes no [ttl]. *)
Definition BirdeyeProvider_new
           (symbols : option (gmap string string)) (retries : option Q)
  : M Provider :=
  do! BaseCachedProvider_new None in
  ret {| cacheKey := "birdeye/data";
         symbolMap := default DEFAULT_SUPPORTED_SYMBOLS symbols;
         maxRetries := match retries with
                       | Some n => if Qeq_bool n 0 then DEFAULT_MAX_RETRIES else n
                       | None => DEFAULT_MAX_RETRIES
                       end |}.

Definition getTokenAddress (this : Provider) (symbol : string) : M string :=
  match symbolMap this !! symbol with
  | Some addr =>
      if String.eqb addr "" then
        throw (Error ("Unsupported symbol " +:+ symbol +:+ " in Birdeye provider"))
      else ret addr
  | None =>
      throw (Error ("Unsupported symbol " +:+ symbol +:+ " in Birdeye provider"))
  end.

Fixpoint lookup_endpoint (type : string) (m : list (string * string))
  : option string :=
  match m with
  | [] => None
  | (k, v) :: rest => if String.eqb type k then Some v else lookup_endpoint type rest
  end.

Definition getUrlByType (type : string) (address : string) : M string :=
  match lookup_endpoint type ENDPOINT_MAP with
  | Some path => ret (API_BASE_URL +:+ path +:+ address)
  | None =>
      throw (Error ("Unsupported symbol " +:+ type +:+ " in Birdeye provider"))
  end.

(** [a || d] on an optional string. *)
Definition or_else (a : option string) (d : string) : string :=
  match a with
  | Some x => if String.eqb x "" then d else x
  | None => d
  end.

Definition request_headers (st : Settings) : list (string * string) :=
  [ ("Accept", "application/json");
    ("x-chain", or_else (BIRDEYE_CHAIN st) "solana");
    ("X-API-KEY", or_else (BIRDEYE_API_KEY st) "") ].

(** [fetch(url, { headers })]: the next outcome of the network; a network
    with nothing left to say rejects. *)
Definition fetch (url : string) : M Response :=
  λ s,
    let s' rest :=
      {| clock := clock s; cache := cache s; cacheManager := cacheManager s;
         settings := settings s; network := rest;
         trace := trace s ++ [EvFetch url (request_headers (settings s))] |} in
    match network s with
    | [] => (Throw (TypeError "fetch failed"), s' [])
    | FetchRejects e :: rest => (Throw e, s' rest)
    | FetchResolves resp :: rest => (Normal resp, s' rest)
    end.

(** The body of the [try] block of [fetchWithRetry]. *)
Definition attempt (url : string) : M JsValue :=
  let! resp := fetch url in
  if negb (ok resp) then
    let! errorText := lift (text resp) in
    throw (Error ("HTTP error! status: " +:+ pretty (status resp)
                  +:+ ", message: " +:+ errorText))
  else
    let! data := lift (json resp) in
    ret data.

(** The [while (attempts < this.maxRetries)] loop.  [maxRetries] is a
    number that nothing checks, so it is a rational here; [attempts] only
    takes integer values.  [variant] counts the iterations the guard still
    admits, that is the integers from [attempts] on that lie below
    [maxRetries]: [Z.to_nat (Qceiling maxRetries - attempts)].  At [0] the
    guard fails and the function falls off its end, which in JavaScript
    returns [undefined]. *)
Fixpoint retry_loop (this : Provider) (url : string)
         (variant : nat) (attempts : Z) : M JsValue :=
  match variant with
  | O => ret JUndefined
  | S variant' =>
      let attempts := attempts + 1 in
      try_catch (attempt url)
        (λ error,
           if Qeq_bool (inject_Z attempts) (maxRetries this) then throw error
           else
             do! waitFor RETRY_DELAY_MS in
             retry_loop this url variant' attempts)
  end.

Definition fetchWithRetry (this : Provider) (url : string) : M JsValue :=
  retry_loop this url (Z.to_nat (Qceiling (maxRetries this) - 0)) 0.

Definition fetchPriceByAddress (this : Provider) (address : string)
  : M JsValue :=
  let! url := getUrlByType "price" address in
  fetchWithRetry this url.

Definition fetchPriceBySymbol (this : Provider) (symbol : string)
  : M JsValue :=
  let! address := getTokenAddress this symbol in
  fetchPriceByAddress this address.

Definition fetchTokenSecurityByAddress (this : Provider) (address : string)
  : M JsValue :=
  let! url := getUrlByType "security" address in
  fetchWithRetry this url.

Definition fetchTokenSecurityBySymbol (this : Provider) (symbol : string)
  : M JsValue :=
  let! address := getTokenAddress this symbol in
  fetchTokenSecurityByAddress this address.

Definition fetchTokenTradeDataByAddress (this : Provider) (address : string)
  : M JsValue :=
  let! url := getUrlByType "volume" address in
  fetchWithRetry this url.

Definition fetchTokenTradeDataBySymbol (this : Provider) (symbol : string)
  : M JsValue :=
  let! address := getTokenAddress this symbol in
  fetchTokenTradeDataByAddress this address.

Definition fetchWalletPortfolio (this : Provider) (address : string)
  : M JsValue :=
  let! url := getUrlByType "portfolio" address in
  fetchWithRetry this url.

(** The four data kinds and the operation that fetches each. *)
Inductive DataKind : Type := Price | Security | Volume | Portfolio.

Definition kind_name (k : DataKind) : string :=
  match k with
  | Price => "price"
  | Security => "security"
  | Volume => "volume"
  | Portfolio => "portfolio"
  end.

Definition fetchByAddress (k : DataKind) (this : Provider) (address : string)
  : M JsValue :=
  match k with
  | Price => fetchPriceByAddress this address
  | Security => fetchTokenSecurityByAddress this address
  | Volume => fetchTokenTradeDataByAddress this address
  | Portfolio => fetchWalletPortfolio this address
  end.

(** *** The exported provider *)

(** The runtime as [get] uses it: [getSetting], which may itself throw;
    its [cacheManager] is the store of the state. *)
Record Runtime : Type :=
  { getSetting : string → Completion (option string) }.

Definition NO_WALLET : string :=
  "Birdeye provider initiated with no wallet found".

Definition FALLBACK : string :=
  "Unable to fetch token information. Please try again later.".

Definition birdeyeProvider_get (runtime : Runtime) : M string :=
  try_catch
    (let! provider := BirdeyeProvider_new None None in
     let! walletAddr := lift (getSetting runtime "BIRDEYE_WALLET_ADDR") in
     match walletAddr with
     | Some addr =>
         if String.eqb addr "" then
           do! emit (EvConsole "warn" "No Birdeye wallet was specified") in
           ret NO_WALLET
         else
           let! portfolio := fetchWalletPortfolio provider addr in
           ret ("Birdeye wallet addr: " +:+ addr +:+ ", portfolio: "
                +:+ to_string portfolio)
     | None =>
         do! emit (EvConsole "warn" "No Birdeye wallet was specified") in
         ret NO_WALLET
     end)
    (λ error,
       do! emit (EvConsole "error" "Error fetching token data:") in
       ret FALLBACK).

(** Time passing between two calls. *)
Definition at_time (t : Z) (s : State) : State :=
  {| clock := t; cache := cache s; cacheManager := cacheManager s;
     settings := settings s; network := network s; trace := trace s |}.

Definition data_of (c : NodeCache.t) : gmap string (JsValue * Z) :=
  NodeCache.data c.

Definition stdTTL_of (c : NodeCache.t) : Z := NodeCache.stdTTL c.

Definition is_fetch (e : Event) : bool :=
  match e with EvFetch _ _ => true | _ => false end.

Definition is_wait (e : Event) : bool :=
  match e with EvWait _ => true | _ => false end.

Definition is_cache_access (e : Event) : bool :=
  match e with
  | EvMemGet _ | EvMemSet _ _ | EvFsGet _ | EvFsSet _ _ _ => true
  | _ => false
  end.

(** What [this.cache.get(key)] gives in a state. *)
Definition mem_value (s : State) (key : string) : JsValue :=
  fst (NodeCache.get (cache s) (clock s) key).

(** What [this.cacheManager.get(path.join(cacheKey, key))] gives. *)
Definition fs_value (this : Provider) (s : State) (key : string) : JsValue :=
  fst (CacheManager.get (cacheManager s) (clock s)
         (Path.join (cacheKey this) key)).

(** The file tier has no live entry for [key]. *)
Definition fs_miss (this : Provider) (s : State) (key : string) : Prop :=
  match cacheManager s !! Path.join (cacheKey this) key with
  | Some entry => CacheManager.alive (clock s) entry = false
  | None => True
  end.

(** The memory tier has a live entry for [key]. *)
Definition mem_hit (s : State) (key : string) (v : JsValue) : Prop :=
  ∃ t, data_of (cache s) !! key = Some (v, t)
       ∧ NodeCache.alive (clock s) (v, t) = true.

Definition with_cache (c : NodeCache.t) (s : State) : State :=
  {| clock := clock s; cache := c; cacheManager := cacheManager s;
     settings := settings s; network := network s; trace := trace s |}.

(** What the [try] block of one attempt completes with, given what the
    network answers ([None]: it has nothing left to say). *)
Definition attempt_result (o : option Outcome) : Completion JsValue :=
  match o with
  | None => Throw (TypeError "fetch failed")
  | Some (FetchRejects e) => Throw e
  | Some (FetchResolves resp) =>
      if negb (ok resp) then
        match text resp with
        | Normal errorText =>
            Throw (Error ("HTTP error! status: " +:+ pretty (status resp)
                          +:+ ", message: " +:+ errorText))
        | Throw e => Throw e
        end
      else json resp
  end.

(** [n] fetches of [url] with a wait of [RETRY_DELAY_MS] between each
    two of them. *)
Fixpoint retry_trace (url : string) (headers : list (string * string))
         (n : nat) : list Event :=
  match n with
  | O => []
  | S k =>
      EvFetch url headers
        :: match k with
           | O => []
           | S _ => EvWait RETRY_DELAY_MS :: retry_trace url headers k
           end
  end.

(** The state after one call of [fetch(url)]. *)
Definition after_fetch (url : string) (s : State) : State :=
  {| clock := clock s; cache := cache s; cacheManager := cacheManager s;
     settings := settings s; network := tail (network s);
     trace := trace s ++ [EvFetch url (request_headers (settings s))] |}.

Definition is_throw {A} (c : Completion A) : Prop := ∃ e, c = Throw e.

Definition maxRetries_of (c : Completion Provider) : option Q :=
  match c with
  | Normal p => Some (maxRetries p)
  | Throw _ => None
  end.

(** [!walletAddr]. *)
Definition no_wallet (w : option string) : bool :=
  match w with
  | Some addr => String.eqb addr ""
  | None => true
  end.

(** The provider that [new BirdeyeProvider(cacheManager)] gives. *)
Definition default_provider : Provider :=
  {| cacheKey := "birdeye/data";
     symbolMap := DEFAULT_SUPPORTED_SYMBOLS;
     maxRetries := DEFAULT_MAX_RETRIES |}.


Definition cacheKey_of (c : Completion Provider) : option string :=
  match c with
  | Normal p => Some (cacheKey p)
  | Throw _ => None
  end.

Definition no_cache_access (evs : list Event) : Prop :=
  Forall (λ e, is_cache_access e = false) evs.

(** The keys that every object literal inherits from [Object.prototype].
    [symbolMap] and [ENDPOINT_MAP] are modelled by their own properties;
    a lookup of one of these keys finds the inherited member instead, so
    what is said below about absent keys leaves them out. *)
Definition OBJECT_PROTOTYPE_KEYS : list string :=
  [ "constructor"; "__proto__"; "hasOwnProperty"; "isPrototypeOf";
    "propertyIsEnumerable"; "toLocaleString"; "toString"; "valueOf";
    "__defineGetter__"; "__defineSetter__"; "__lookupGetter__";
    "__lookupSetter__" ].

Definition unsupported (name : string) : Exn :=
  Error ("Unsupported symbol " +:+ name +:+ " in Birdeye provider").

(** The number of HTTP requests in a trace. *)
Definition count_fetches (evs : list Event) : nat :=
  length (filter (λ e, is_fetch e = true) evs).

(** The in-memory entry written at [now] is still alive at [t]. *)
Definition mem_alive_until (c : NodeCache.t) (now t : Z) : Prop :=
  stdTTL_of c = 0 ∨ t ≤ now + stdTTL_of c * 1000.

End Birdeye.

(** ** The GOAT plugin factory (src/packages/plugin-goat/src/index.ts) *)

Module Goat.

Import Js Eff.

Definition REQUIRED_SETTINGS : list (string * string) :=
  [ ("WALLET_PUBLIC_KEY", "Solana wallet public key");
    ("DEXSCREENER_WATCHLIST_ID", "DexScreener watchlist ID");
    ("COINGECKO_API_KEY", "CoinGecko API key") ].

Inductive Event : Type :=
| EvLog (msg : string)
| EvLogError (msg : string)
| EvNewConnection (rpcUrl : string)
| EvNewPublicKey (key : string)
| EvTwitterParse
| EvTwitterStart
| EvGetOnChainActions (apiKey : option string) (watchlistUrl : string)
                      (tweets : bool).

(** The vendor SDKs and the sibling module [./actions], which are not
    part of this file: each call either succeeds or throws. *)
Record Sdk : Type :=
  { Connection_new : string → Completion unit;
    PublicKey_new : string → Completion unit;
    TwitterClientInterface_start : Completion unit;
    getOnChainActions : Completion (list string);
    solana_evaluators : option (list string);
    solana_providers : option (list string);
    solana_actions : option (list string) }.

Record Plugin : Type :=
  { name : string;
    description : string;
    evaluators : list string;
    providers : list string;
    actions : list string;
    services : list string }.

Definition M (A : Type) : Type := Eff.M (list Event) A.

Definition emit (e : Event) : M unit := λ tr, (Normal tt, tr ++ [e]).

Definition message (e : Exn) : string :=
  match e with
  | Error msg => msg
  | TypeError msg => msg
  end.

(** [!getSetting(key)]: unset, or the empty string. *)
Definition unset (v : option string) : bool :=
  match v with
  | Some s => String.eqb s ""
  | None => true
  end.

Definition describe (entry : string * string) : string :=
  fst entry +:+ " (" +:+ snd entry +:+ ")".

(** The validation loop over [Object.entries(REQUIRED_SETTINGS)]. *)
Definition missingSettings (getSetting : string → option string)
  : list string :=
  fold_left
    (λ missing entry,
       if unset (getSetting (fst entry)) then missing ++ [describe entry]
       else missing)
    REQUIRED_SETTINGS [].

Definition errorMsg (missing : list string) : string :=
  "Missing required settings: " +:+ String.concat ", " missing.

Definition or_else (a : option string) (d : string) : string :=
  match a with
  | Some x => if String.eqb x "" then d else x
  | None => d
  end.

(** [TwitterConfigSchema.parse]: [username] must be a string of length at
    least one; [enabled] and [dryRun] are booleans by construction. *)
Definition TwitterConfigSchema_parse (enabled : bool)
           (username : option string) (dryRun : bool)
  : Completion (bool * string * bool) :=
  match username with
  | Some u =>
      if String.eqb u "" then Throw (Error "ZodError") else Normal (enabled, u, dryRun)
  | None => Throw (Error "ZodError")
  end.

Definition is_true (v : option string) : bool :=
  match v with
  | Some s => String.eqb s "true"
  | None => false
  end.

Definition initSolana (sdk : Sdk) (getSetting : string → option string)
           (runtime : option (string → option string)) : M unit :=
  try_catch
    (do! emit (EvLog "Initializing Solana connection...") in
     let rpc := or_else (match runtime with
                         | Some rtGet => rtGet "RPC_URL"
                         | None => None
                         end) "https://api.mainnet-beta.solana.com" in
     do! emit (EvNewConnection rpc) in
     do! lift (Connection_new sdk rpc) in
     let key := or_else (getSetting "WALLET_PUBLIC_KEY") "" in
     do! emit (EvNewPublicKey key) in
     do! lift (PublicKey_new sdk key) in
     emit (EvLog "Solana connection and wallet provider initialized successfully"))
    (λ error,
       do! emit (EvLogError "Failed to initialize Solana components:") in
       throw (Error ("Solana initialization failed: " +:+ message error))).

(** Gives [true] when a [TwitterService] was built. *)
Definition initTwitter (sdk : Sdk) (getSetting : string → option string)
           (runtime : option (string → option string)) : M bool :=
  try_catch
    (do! emit (EvLog "Configuring Twitter service for trade notifications...") in
     do! emit EvTwitterParse in
     let! twitterConfig :=
       lift (TwitterConfigSchema_parse
               (is_true (getSetting "TWITTER_ENABLED"))
               (getSetting "TWITTER_USERNAME")
               (is_true (getSetting "TWITTER_DRY_RUN"))) in
     if fst (fst twitterConfig) && bool_decide (is_Some runtime) then
       do! emit (EvLog "Starting Twitter client initialization...") in
       do! emit EvTwitterStart in
       do! lift (TwitterClientInterface_start sdk) in
       do! emit (EvLog "Twitter service initialized successfully") in
       ret true
     else ret false)
    (λ error,
       do! emit (EvLogError "Failed to initialize Twitter service:") in
       ret false).

Definition createGoatPlugin (sdk : Sdk) (getSetting : string → option string)
           (runtime : option (string → option string)) : M Plugin :=
  do! emit (EvLog "Starting GOAT plugin initialization") in
  let missing := missingSettings getSetting in
  if (0 <? length missing)%nat then
    do! emit (EvLogError (errorMsg missing)) in
    throw (Error (errorMsg missing))
  else
    do! initSolana sdk getSetting runtime in
    let! twitterService := initTwitter sdk getSetting runtime in
    do! emit (EvLog "Initializing Solana plugin components...") in
    try_catch
      (do! emit (EvGetOnChainActions
                   (getSetting "COINGECKO_API_KEY")
                   ("https://api.dexscreener.com/latest/dex/watchlists/"
                      +:+ default "undefined" (getSetting "DEXSCREENER_WATCHLIST_ID"))
                   twitterService) in
       let! customActions := lift (getOnChainActions sdk) in
       do! emit (EvLog "GOAT plugin initialization completed successfully") in
       ret {| name := "[GOAT] Onchain Actions with Solana Integration";
              description := "Autonomous trading integration";
              evaluators := "trustEvaluator" :: default [] (solana_evaluators sdk);
              providers := "walletProvider" :: "trustScoreProvider"
                             :: default [] (solana_providers sdk);
              actions := customActions ++ default [] (solana_actions sdk);
              services := [] |})
      (λ error,
         do! emit (EvLogError "Failed to initialize plugin components:") in
         throw (Error ("Plugin initialization failed: " +:+ message error))).

(** The events that build the wallet adapter or the Twitter notifier. *)
Definition is_init (e : Event) : bool :=
  match e with
  | EvNewConnection _ | EvNewPublicKey _ | EvTwitterParse | EvTwitterStart
  | EvGetOnChainActions _ _ _ => true
  | _ => false
  end.

(** [needle] occurs in [hay]. *)
Definition occurs_in (needle hay : string) : Prop :=
  ∃ before after, hay = before +:+ needle +:+ after.

(** The RPC endpoint and the wallet key that [createGoatPlugin] uses. *)
Definition rpcUrl (runtime : option (string → option string)) : string :=
  or_else (match runtime with
           | Some rtGet => rtGet "RPC_URL"
           | None => None
           end) "https://api.mainnet-beta.solana.com".

Definition walletKey (getSetting : string → option string) : string :=
  or_else (getSetting "WALLET_PUBLIC_KEY") "".

(** The events of the steps that follow the Solana initialisation. *)
Definition after_solana (e : Event) : bool :=
  match e with
  | EvTwitterParse | EvTwitterStart | EvGetOnChainActions _ _ _ => true
  | _ => false
  end.

(** The plugin that a successful run assembles around [customActions]. *)
Definition assembled (sdk : Sdk) (customActions : list string) : Plugin :=
  {| name := "[GOAT] Onchain Actions with Solana Integration";
     description := "Autonomous trading integration";
     evaluators := "trustEvaluator" :: default [] (solana_evaluators sdk);
     providers := "walletProvider" :: "trustScoreProvider"
                    :: default [] (solana_providers sdk);
     actions := customActions ++ default [] (solana_actions sdk);
     services := [] |}.

End Goat.

(** ** [TwitterService] of the GOAT plugin
    (src/packages/plugin-goat/src/index.ts)

    [formatTradeAlert] formats floating-point numbers with [toFixed]; what
    it completes with for the alert at hand is given to the model. *)

Module TwitterService.

Import Js Eff.

Inductive Event : Type :=
| EvLog (msg : string)
| EvLogError (msg : string)
| EvSendTweet (tweetContent : string).

Definition M (A : Type) : Type := Eff.M (list Event) A.

Definition emit (e : Event) : M unit := λ tr, (Normal tt, tr ++ [e]).

(** [postTradeAlert(alert)] on a service with the given [dryRun] flag and
    client, [formatted] being what [this.formatTradeAlert(alert)] gives. *)
Definition postTradeAlert (sendTweet : string → Completion unit)
           (dryRun : bool) (formatted : Completion string) : M bool :=
  try_catch
    (let! tweetContent := lift formatted in
     if dryRun then
       do! emit (EvLog "Dry run mode - would have posted tweet:") in
       ret true
     else
       do! emit (EvSendTweet tweetContent) in
       do! lift (sendTweet tweetContent) in
       do! emit (EvLog "Successfully posted trade alert to Twitter") in
       ret true)
    (λ error,
       do! emit (EvLogError "Failed to post trade alert to Twitter:") in
       ret false).

(** The [tweetTrade] closure of [createGoatPlugin]: [twitterService] is
    the client and the [dryRun] flag of the service, if one was built. *)
Definition tweetTrade
           (twitterService : option ((string → Completion unit) * bool))
           (formatted : Completion string) : M unit :=
  match twitterService with
  | Some service =>
      do! postTradeAlert (fst service) (snd service) formatted in
      ret tt
  | None => ret tt
  end.

Definition tweets (tr : list Event) : list string :=
  omap (λ e, match e with EvSendTweet c => Some c | _ => None end) tr.

End TwitterService.

(** ** The XMTP bootstrap (src/unnamed/part_000) *)

Module Xmtp.

Import Js Eff.

Inductive Event : Type :=
| EvConsoleLog (msg : string)
| EvCreateClient (encryptionKey : option string)
| EvSend (response : string).

Definition M (A : Type) : Type := Eff.M (list Event) A.

Definition emit (e : Event) : M unit := λ tr, (Normal tt, tr ++ [e]).

(** The handler given to [createClient]; [send] is the client's, and may
    throw. *)
Definition onMessage (send : string → Completion unit)
           (message user : JsValue) : M unit :=
  do! emit (EvConsoleLog ("Decoded message: " +:+ to_string message
                          +:+ " by " +:+ to_string user)) in
  let response := "Your AI response here" in
  do! emit (EvSend response) in
  lift (send response).

(** [startXmtpClient]: gives the handler it registered. *)
Definition startXmtpClient (send : string → Completion unit)
           (EVM_PRIVATE_KEY : option string)
  : M (JsValue → JsValue → M unit) :=
  do! emit (EvCreateClient EVM_PRIVATE_KEY) in
  do! emit (EvConsoleLog "XMTP client started") in
  ret (onMessage send).

(** The replies handed to the client in a trace. *)
Definition sent (tr : list Event) : list string :=
  omap (λ e, match e with EvSend r => Some r | _ => None end) tr.

End Xmtp.

(** ** The Avalanche swap action
    (src/packages/plugin-avalanche/src/actions/yakSwap.ts) *)

Module YakSwap.

Import Js Eff.

Definition ZERO_ADDRESS : string :=
  "0x0000000000000000000000000000000000000000".

Definition yakRouterAddress : string :=
  "0xC4729E56b831d74bBc18797e0e17A295fA77488c".

Inductive Event : Type :=
| EvLog (msg : string)
| EvComposeState
| EvUpdateRecentMessageState
| EvGenerateObject
| EvGetQuote (fromToken toToken amount : JsValue)
| EvApprove (token : JsValue) (spender : string) (amount : JsValue)
| EvGetTxReceipt (tx : JsValue)
| EvSwap (quote : JsValue)
| EvCallback (text : string) (content : JsValue).

(** The runtime's generation facility and the four functions imported
    from the plugin's index, which are not part of this file. *)
Record Env : Type :=
  { composeState : Completion unit;
    updateRecentMessageState : Completion unit;
    generateObject : Completion JsValue;
    getQuote : JsValue → JsValue → JsValue → Completion JsValue;
    approve : JsValue → string → JsValue → Completion JsValue;
    getTxReceipt : JsValue → Completion JsValue;
    swap : JsValue → Completion JsValue }.

Definition M (A : Type) : Type := Eff.M (list Event) A.

Definition emit (e : Event) : M unit := λ tr, (Normal tt, tr ++ [e]).

(** [callback?.({ text, content })]. *)
Definition call_back (has_callback : bool) (text : string) (content : JsValue)
  : M unit :=
  if has_callback then emit (EvCallback text content) else ret tt.

(** [v === s] for a string literal [s]. *)
Definition strict_eq_str (v : JsValue) (s : string) : bool :=
  match v with
  | JStr x => String.eqb x s
  | _ => false
  end.

Definition is_type (v : JsValue) (t : string) : bool :=
  String.eqb (typeof v) t.

Definition isSwapContent (content : JsValue) : M bool :=
  do! emit (EvLog "Content for swap") in
  let! fromTokenAddress := lift (get_field content "fromTokenAddress") in
  if negb (is_type fromTokenAddress "string") then ret false
  else
    let! toTokenAddress := lift (get_field content "toTokenAddress") in
    if negb (is_type toTokenAddress "string") then ret false
    else
      let! recipient := lift (get_field content "recipient") in
      if negb (is_type recipient "string" || negb (truthy recipient))
      then ret false
      else
        let! amount := lift (get_field content "amount") in
        ret (is_type amount "string" || is_type amount "number").

(** The tail of the handler that every path without a [return] reaches. *)
Definition something_went_wrong (has_callback : bool) : M bool :=
  do! call_back has_callback "something went wrong"
        (JObj [("error", JStr "Swap failed")]) in
  ret true.

Definition handler (env : Env) (has_state has_callback : bool) : M bool :=
  do! emit (EvLog "Starting SWAP_TOKEN handler...") in
  do! (if negb has_state then
         do! emit EvComposeState in lift (composeState env)
       else
         do! emit EvUpdateRecentMessageState in
         lift (updateRecentMessageState env)) in
  do! emit EvGenerateObject in
  let! content := lift (generateObject env) in
  let! valid := isSwapContent content in
  if negb valid then
    do! emit (EvLog "Invalid content for SWAP_TOKEN action.") in
    do! call_back has_callback
          "Unable to process swap request. Invalid content provided."
          (JObj [("error", JStr "Invalid swap content")]) in
    ret false
  else
    do! emit (EvLog "Swap content:") in
    let! fromTokenAddress := lift (get_field content "fromTokenAddress") in
    let! toTokenAddress := lift (get_field content "toTokenAddress") in
    let! amount := lift (get_field content "amount") in
    do! emit (EvGetQuote fromTokenAddress toTokenAddress amount) in
    let! quote := lift (getQuote env fromTokenAddress toTokenAddress amount) in
    if strict_eq_str fromTokenAddress ZERO_ADDRESS then
      do! emit (EvLog "Swapping from native AVAX") in
      something_went_wrong has_callback
    else if strict_eq_str toTokenAddress ZERO_ADDRESS then
      do! emit (EvLog "Swapping to native AVAX") in
      something_went_wrong has_callback
    else
      do! emit (EvApprove fromTokenAddress yakRouterAddress amount) in
      let! tx := lift (approve env fromTokenAddress yakRouterAddress amount) in
      do! call_back has_callback "approving token..."
            (JObj [("success", JBool true)]) in
      if truthy tx then
        do! emit (EvGetTxReceipt tx) in
        let! receipt := lift (getTxReceipt env tx) in
        let! status := lift (get_field receipt "status") in
        if strict_eq_str status "success" then
          do! call_back has_callback "token approved, swapping..."
                (JObj [("success", JBool true); ("txHash", tx)]) in
          do! emit (EvSwap quote) in
          let! swapTx := lift (swap env quote) in
          if truthy swapTx then
            do! emit (EvGetTxReceipt swapTx) in
            let! receipt := lift (getTxReceipt env swapTx) in
            let! status := lift (get_field receipt "status") in
            if strict_eq_str status "success" then
              do! emit (EvLog "Swap successful") in
              do! call_back has_callback "swap successful"
                    (JObj [("success", JBool true); ("txHash", swapTx)]) in
              ret true
            else
              do! emit (EvLog "Swap failed") in
              do! call_back has_callback "swap failed"
                    (JObj [("error", JStr "Swap failed")]) in
              ret true
          else something_went_wrong has_callback
        else
          do! emit (EvLog "Approve failed") in
          do! call_back has_callback "approve failed"
                (JObj [("error", JStr "Approve failed")]) in
          ret true
      else something_went_wrong has_callback.

(** The calls that leave the handler, by kind. *)
Inductive Call : Type := Generate | Quote | Approve | Receipt | Swap.

Global Instance Call_eq_dec : EqDecision Call.
Proof. solve_decision. Defined.

Definition call_of (e : Event) : option Call :=
  match e with
  | EvGenerateObject => Some Generate
  | EvGetQuote _ _ _ => Some Quote
  | EvApprove _ _ _ => Some Approve
  | EvGetTxReceipt _ => Some Receipt
  | EvSwap _ => Some Swap
  | _ => None
  end.

Definition calls (tr : list Event) : list Call := omap call_of tr.

(** Some [a] occurs in [l] strictly before some [b]. *)
Fixpoint occurs_before (a b : Call) (l : list Call) : bool :=
  match l with
  | [] => false
  | x :: rest =>
      (bool_decide (x = a) && bool_decide (b ∈ rest)) || occurs_before a b rest
  end.

(** The order in which the handler issues its calls. *)
Definition CALL_ORDER : list Call :=
  [Generate; Quote; Approve; Receipt; Swap; Receipt].

(** A swap content object. *)
Definition swap_content (fromToken toToken : string) (amount : JsValue)
  : JsValue :=
  JObj [("fromTokenAddress", JStr fromToken);
        ("toTokenAddress", JStr toToken);
        ("recipient", JNull);
        ("amount", amount)].

End YakSwap.

(** ** Concrete scenarios used below *)

Module Scenario.

Import Js Eff.

Definition no_settings : Birdeye.Settings :=
  {| Birdeye.BIRDEYE_CHAIN := None; Birdeye.BIRDEYE_API_KEY := None |}.

(** A provider as [new BirdeyeProvider(cacheManager)] builds it. *)
Definition birdeye : Birdeye.Provider :=
  {| Birdeye.cacheKey := "birdeye/data";
     Birdeye.symbolMap := Birdeye.DEFAULT_SUPPORTED_SYMBOLS;
     Birdeye.maxRetries := 3 |}.

(** A provider built with [maxRetries = 2.5]. *)
Definition fractional : Birdeye.Provider :=
  {| Birdeye.cacheKey := "birdeye/data";
     Birdeye.symbolMap := Birdeye.DEFAULT_SUPPORTED_SYMBOLS;
     Birdeye.maxRetries := (5 # 2)%Q |}.

(** Both tiers empty at time 1000, the network answering with [net]. *)
Definition fresh (net : list Birdeye.Outcome) : Birdeye.State :=
  {| Birdeye.clock := 1000;
     Birdeye.cache := NodeCache.create 300;
     Birdeye.cacheManager := ∅;
     Birdeye.settings := no_settings;
     Birdeye.network := net;
     Birdeye.trace := [] |}.

(** The memory tier holds [0] for key ["k"] while the file tier holds [7]
    for it: what a second provider instance over the same cache manager
    leaves behind after writing [7]. *)
Definition stale_zero : Birdeye.State :=
  {| Birdeye.clock := 1000;
     Birdeye.cache :=
       NodeCache.mk 300 {[ "k" := (JNum 0, 301000) ]};
     Birdeye.cacheManager := {[ "birdeye/data/k" := (JNum 7, 301000) ]};
     Birdeye.settings := no_settings;
     Birdeye.network := [];
     Birdeye.trace := [] |}.

Definition ok_response (data : JsValue) : Birdeye.Outcome :=
  Birdeye.FetchResolves
    {| Birdeye.ok := true; Birdeye.status := 200;
       Birdeye.text := Normal ""; Birdeye.json := Normal data |}.

Definition server_error : Birdeye.Outcome :=
  Birdeye.FetchResolves
    {| Birdeye.ok := false; Birdeye.status := 500;
       Birdeye.text := Normal "down";
       Birdeye.json := Throw (Error "no body") |}.

(** The vendor SDKs all succeeding. *)
Definition good_sdk : Goat.Sdk :=
  {| Goat.Connection_new := λ _, Normal tt;
     Goat.PublicKey_new := λ _, Normal tt;
     Goat.TwitterClientInterface_start := Normal tt;
     Goat.getOnChainActions := Normal ["SWAP"];
     Goat.solana_evaluators := Some [];
     Goat.solana_providers := Some [];
     Goat.solana_actions := Some [] |}.

(** The wallet key is rejected by [PublicKey]. *)
Definition bad_key_sdk : Goat.Sdk :=
  {| Goat.Connection_new := λ _, Normal tt;
     Goat.PublicKey_new := λ _, Throw (Error "Invalid public key input");
     Goat.TwitterClientInterface_start := Normal tt;
     Goat.getOnChainActions := Normal ["SWAP"];
     Goat.solana_evaluators := Some [];
     Goat.solana_providers := Some [];
     Goat.solana_actions := Some [] |}.

(** [getOnChainActions] fails. *)
Definition no_actions_sdk : Goat.Sdk :=
  {| Goat.Connection_new := λ _, Normal tt;
     Goat.PublicKey_new := λ _, Normal tt;
     Goat.TwitterClientInterface_start := Normal tt;
     Goat.getOnChainActions := Throw (Error "watchlist unreachable");
     Goat.solana_evaluators := Some [];
     Goat.solana_providers := Some [];
     Goat.solana_actions := Some [] |}.

(** The Twitter client cannot be started. *)
Definition no_twitter_sdk : Goat.Sdk :=
  {| Goat.Connection_new := λ _, Normal tt;
     Goat.PublicKey_new := λ _, Normal tt;
     Goat.TwitterClientInterface_start := Throw (Error "login failed");
     Goat.getOnChainActions := Normal ["SWAP"];
     Goat.solana_evaluators := None;
     Goat.solana_providers := Some ["walletBalance"];
     Goat.solana_actions := Some ["TRANSFER"] |}.

(** The three required settings and an enabled Twitter account. *)
Definition twitter_enabled (key : string) : option string :=
  if String.eqb key "WALLET_PUBLIC_KEY" then Some "9xQeWvG816bUx9EP"
  else if String.eqb key "DEXSCREENER_WATCHLIST_ID" then Some "wl1"
  else if String.eqb key "COINGECKO_API_KEY" then Some "cg-key"
  else if String.eqb key "TWITTER_ENABLED" then Some "true"
  else if String.eqb key "TWITTER_USERNAME" then Some "memewave"
  else None.

(** Only the wallet key is configured. *)
Definition wallet_only (key : string) : option string :=
  if String.eqb key "WALLET_PUBLIC_KEY" then Some "9xQeWvG816bUx9EP" else None.

(** The three required settings are configured, nothing else. *)
Definition all_required (key : string) : option string :=
  if String.eqb key "WALLET_PUBLIC_KEY" then Some "9xQeWvG816bUx9EP"
  else if String.eqb key "DEXSCREENER_WATCHLIST_ID" then Some "wl1"
  else if String.eqb key "COINGECKO_API_KEY" then Some "cg-key"
  else None.

Definition runtime_with (wallet : option string) : Birdeye.Runtime :=
  {| Birdeye.getSetting := λ _, Normal wallet |}.

Definition USDC : string := "0xB97EF9Ef8734C71904D8002F8b6Bc66Dd9c48a6E".

Definition gmYAK : string := "0x3A30784c1af928CdFce678eE49370220aA716DC3".

(** "Sell 5 USDC for gmYAK", as the model is asked to extract it. *)
Definition usdc_for_yak : JsValue :=
  YakSwap.swap_content USDC gmYAK (JStr "5").

(** The generation gives [content]; quote, approval, swap and both
    receipts succeed. *)
Definition swap_env (content : JsValue) : YakSwap.Env :=
  {| YakSwap.composeState := Normal tt;
     YakSwap.updateRecentMessageState := Normal tt;
     YakSwap.generateObject := Normal content;
     YakSwap.getQuote := λ _ _ _, Normal (JObj [("amounts", JArr [JNum 5; JNum 9])]);
     YakSwap.approve := λ _ _ _, Normal (JStr "0xa11ce");
     YakSwap.getTxReceipt := λ _, Normal (JObj [("status", JStr "success")]);
     YakSwap.swap := λ _, Normal (JStr "0x5a4b") |}.

(** A valid request for which no quote can be found. *)
Definition no_liquidity_env : YakSwap.Env :=
  {| YakSwap.composeState := Normal tt;
     YakSwap.updateRecentMessageState := Normal tt;
     YakSwap.generateObject := Normal usdc_for_yak;
     YakSwap.getQuote := λ _ _ _, Throw (Error "no route found");
     YakSwap.approve := λ _ _ _, Normal (JStr "0xa11ce");
     YakSwap.getTxReceipt := λ _, Normal (JObj [("status", JStr "success")]);
     YakSwap.swap := λ _, Normal (JStr "0x5a4b") |}.

Definition price_data : JsValue :=
  JObj [("success", JBool true); ("data", JObj [("value", JNum 42)])].

Definition SOL : string := "So11111111111111111111111111111111111111112".

End Scenario.

(** * Theorems *)

(** Splits a conjunction into its parts, and nothing else. *)
Ltac split_ands :=
  repeat match goal with
         | |- _ ∧ _ => split
         end.

(** Case analysis on whatever the computation scrutinises next. *)
Ltac step_match :=
  match goal with
  | |- context [match ?x with _ => _ end] =>
      lazymatch x with
      | context [match _ with _ => _ end] => fail
      | _ => destruct x eqn:?
      end
  end.

Section BirdeyeCache.

Import Js Eff Birdeye.

Lemma readFromCache_unfold this key s :
  readFromCache this key s =
    let '(val, c) := NodeCache.get (cache s) (clock s) key in
    let s1 := {| clock := clock s; cache := c; cacheManager := cacheManager s;
                 settings := settings s; network := network s;
                 trace := trace s ++ [EvMemGet key] |} in
    if truthy val then (Normal val, s1)
    else
      let path := Path.join (cacheKey this) key in
      let '(fsVal, m) := CacheManager.get (cacheManager s) (clock s) path in
      if truthy fsVal then
        (Normal fsVal,
         {| clock := clock s; cache := NodeCache.set c (clock s) key fsVal;
            cacheManager := m; settings := settings s; network := network s;
            trace := (trace s ++ [EvMemGet key]) ++ [EvFsGet path]
                       ++ [EvMemSet key fsVal] |})
      else
        (Normal fsVal,
         {| clock := clock s; cache := c; cacheManager := m;
            settings := settings s; network := network s;
            trace := (trace s ++ [EvMemGet key]) ++ [EvFsGet path] |}).
Proof.
  unfold readFromCache, bind, cache_get, readFsCache, cacheManager_get.
  destruct (NodeCache.get (cache s) (clock s) key) as [val c] eqn:Hmem.
  cbn. destruct (truthy val) eqn:Hval; cbn; [done|].
  destruct (CacheManager.get (cacheManager s) (clock s)
              (Path.join (cacheKey this) key)) as [fsVal m] eqn:Hfs.
  cbn. destruct (truthy fsVal); cbn; by rewrite <- ?app_assoc.
Qed.

Lemma mem_hit_value s key v : mem_hit s key v → mem_value s key = v.
Proof.
  intros (t & Hl & Ha). unfold mem_value, NodeCache.get.
  unfold data_of in Hl. by rewrite Hl, Ha.
Qed.

Lemma fs_miss_value this s key :
  fs_miss this s key → fs_value this s key = JUndefined.
Proof.
  unfold fs_miss, fs_value, CacheManager.get.
  destruct (cacheManager s !! Path.join (cacheKey this) key) as [entry|]; [|done].
  by intros ->.
Qed.

(** C2, as the code has it.  [readFromCache] reads the in-memory cache
    first and returns its value when that value is truthy, leaving the
    file-backed cache alone.  Otherwise (nothing alive in memory, or a
    falsy value there) it reads the file-backed cache at
    [path.join(cacheKey, key)] and returns what that gives; a truthy file
    value is first stored in the in-memory cache.  When the file tier has
    no live entry either, the result is [undefined], which is what the
    cache manager resolves to on a miss. *)
Theorem readFromCache_tiers this key s :
  let path := Path.join (cacheKey this) key in
  let r := readFromCache this key s in
  (truthy (mem_value s key) = true →
     fst r = Normal (mem_value s key)
     ∧ cacheManager (snd r) = cacheManager s
     ∧ trace (snd r) = trace s ++ [EvMemGet key])
  ∧ (truthy (mem_value s key) = false →
     fst r = Normal (fs_value this s key)
     ∧ [EvMemGet key; EvFsGet path] `prefix_of` drop (length (trace s)) (trace (snd r)))
  ∧ (truthy (mem_value s key) = false →
     truthy (fs_value this s key) = true →
     ∃ t, data_of (cache (snd r)) !! key = Some (fs_value this s key, t)
          ∧ trace (snd r)
             = trace s ++ [EvMemGet key; EvFsGet path;
                           EvMemSet key (fs_value this s key)])
  ∧ (truthy (mem_value s key) = false →
     fs_miss this s key →
     fst r = Normal JUndefined).
Proof.
  intros path r. subst r. rewrite readFromCache_unfold.
  unfold mem_value, fs_value. fold path.
  destruct (NodeCache.get (cache s) (clock s) key) as [val c] eqn:Hmem.
  destruct (CacheManager.get (cacheManager s) (clock s) path)
    as [fsVal m] eqn:Hfs.
  cbn [fst snd].
  split; [|split; [|split]].
  - intros ->. done.
  - intros ->. destruct (truthy fsVal); cbn [fst snd trace]; split; try done.
    + rewrite <- app_assoc, drop_app_length. by exists [EvMemSet key fsVal].
    + rewrite <- app_assoc, drop_app_length. by exists [].
  - intros -> ->. cbn [fst snd trace cache]. eexists. split.
    + unfold data_of, NodeCache.set, NodeCache.wrap. cbn.
      apply lookup_insert_eq.
    + by rewrite <- app_assoc.
  - intros -> Hmiss. apply (fs_miss_value this s key) in Hmiss.
    unfold fs_value in Hmiss. fold path in Hmiss. rewrite Hfs in Hmiss.
    cbn in Hmiss. subst fsVal. done.
Qed.

Lemma readFromCache_tiers_witness :
  truthy (mem_value Scenario.stale_zero "k") = false
  ∧ truthy (fs_value Scenario.birdeye Scenario.stale_zero "k") = true
  ∧ fst (readFromCache Scenario.birdeye "k" Scenario.stale_zero)
    = Normal (JNum 7).
Proof.
  split; [reflexivity|]. split; [reflexivity|].
  destruct (readFromCache_tiers Scenario.birdeye "k" Scenario.stale_zero)
    as (_ & H & _).
  exact (proj1 (H eq_refl)).
Defined.

(** C2 as stated fails: a live in-memory entry whose value is falsy is
    not returned, the file tier's value is; and with both tiers empty the
    result is [undefined], not [null]. *)
Lemma readFromCache_falsy_hit_counterexample :
  mem_hit Scenario.stale_zero "k" (JNum 0)
  ∧ fst (readFromCache Scenario.birdeye "k" Scenario.stale_zero)
    = Normal (JNum 7)
  ∧ fst (readFromCache Scenario.birdeye "k" Scenario.stale_zero)
    ≠ Normal (JNum 0)
  ∧ fst (readFromCache Scenario.birdeye "k" (Scenario.fresh []))
    = Normal JUndefined
  ∧ fst (readFromCache Scenario.birdeye "k" (Scenario.fresh []))
    ≠ Normal JNull.
Proof.
  split; [|split; [|split; [|split]]].
  - exists 301000. split; reflexivity.
  - reflexivity.
  - vm_compute. discriminate.
  - reflexivity.
  - vm_compute. discriminate.
Qed.

Lemma writeToCache_unfold this key val s :
  writeToCache this key val s =
    (Normal tt,
     {| clock := clock s;
        cache := NodeCache.set (cache s) (clock s) key val;
        cacheManager :=
          CacheManager.set (cacheManager s) (Path.join (cacheKey this) key)
            val (clock s + 5 * 60 * 1000);
        settings := settings s; network := network s;
        trace := trace s ++ [EvMemSet key val;
                             EvFsSet (Path.join (cacheKey this) key) val
                               (clock s + 5 * 60 * 1000)] |}).
Proof.
  unfold writeToCache, writeFsCache, cache_set, cacheManager_set, bind.
  cbn. by rewrite <- app_assoc.
Qed.








End BirdeyeCache.

Section BirdeyeRetry.

Import Js Eff Birdeye.

Lemma attempt_unfold url s :
  attempt url s = (attempt_result (network s !! 0%nat), after_fetch url s).
Proof.
  unfold attempt, bind, fetch, after_fetch, lift, throw, ret.
  destruct (network s) as [|[e|resp] rest]; cbn; try done.
  destruct (ok resp); cbn; [by destruct (json resp)|by destruct (text resp)].
Qed.

Lemma retry_trace_step url hs n :
  (0 < n)%nat →
  retry_trace url hs (S n)
  = EvFetch url hs :: EvWait RETRY_DELAY_MS :: retry_trace url hs n.
Proof. destruct n; [lia|done]. Qed.

Lemma Qeq_bool_inject (a m : Z) (q : Q) :
  (q == inject_Z m)%Q → Qeq_bool (inject_Z a) q = (a =? m).
Proof.
  intros Hq. destruct (Z.eqb_spec a m) as [->|Hne].
  - apply Qeq_eq_bool. by symmetry.
  - destruct (Qeq_bool (inject_Z a) q) eqn:Heq; [|done].
    apply Qeq_bool_eq in Heq. rewrite Hq in Heq.
    exfalso. apply Hne. by apply (proj1 (inject_Z_injective a m)).
Qed.

Lemma Qceiling_inject (m : Z) (q : Q) :
  (q == inject_Z m)%Q → Qceiling q = m.
Proof. intros Hq. rewrite Hq. apply Qceiling_Z. Qed.

Lemma Qeq_bool_below (a : Z) (q : Q) :
  (inject_Z a < q)%Q → Qeq_bool (inject_Z a) q = false.
Proof.
  intros Hlt. destruct (Qeq_bool (inject_Z a) q) eqn:Heq; [|done].
  apply Qeq_bool_eq in Heq. rewrite Heq in Hlt.
  by apply Qlt_irrefl in Hlt.
Qed.

(** The variant of the loop is positive exactly when the guard
    [attempts < this.maxRetries] holds, and one more attempt lowers it by
    one. *)
Lemma retry_variant_guard (q : Q) (attempts : Z) :
  ((0 < Z.to_nat (Qceiling q - attempts))%nat ↔ (inject_Z attempts < q)%Q)
  ∧ ((inject_Z attempts < q)%Q →
     Z.to_nat (Qceiling q - attempts)
     = S (Z.to_nat (Qceiling q - (attempts + 1)))).
Proof.
  assert (Hiff : 0 < Qceiling q - attempts ↔ (inject_Z attempts < q)%Q).
  { split.
    - intros Hpos. eapply Qle_lt_trans; [|apply Qceiling_lt].
      rewrite <- Zle_Qle. lia.
    - intros Hlt.
      assert (attempts < Qceiling q); [|lia].
      rewrite Zlt_Qlt. eapply Qlt_le_trans; [exact Hlt|apply Qle_ceiling]. }
  split.
  - rewrite <- Hiff. lia.
  - intros Hlt. apply Hiff in Hlt. lia.
Qed.

(** The loop for an integer [maxRetries], started with its guard true: it
    makes [n] attempts, at
    least one and at most as many as the guard admits; all but the last
    fail and are followed by the delay; the call completes as the last
    attempt does, and a throw means that the attempts are used up. *)
Lemma retry_loop_spec this url (m : Z) variant :
  (maxRetries this == inject_Z m)%Q →
  ∀ attempts s,
    Z.of_nat variant = m - attempts →
    (0 < variant)%nat →
    ∃ n : nat,
      (1 ≤ n ≤ variant)%nat
      ∧ trace (snd (retry_loop this url variant attempts s))
        = trace s ++ retry_trace url (request_headers (settings s)) n
      ∧ clock (snd (retry_loop this url variant attempts s))
        = clock s + RETRY_DELAY_MS * (Z.of_nat n - 1)
      ∧ cache (snd (retry_loop this url variant attempts s)) = cache s
      ∧ cacheManager (snd (retry_loop this url variant attempts s))
        = cacheManager s
      ∧ (∀ i, (i < n - 1)%nat → is_throw (attempt_result (network s !! i)))
      ∧ fst (retry_loop this url variant attempts s)
        = attempt_result (network s !! (n - 1)%nat)
      ∧ (is_throw (fst (retry_loop this url variant attempts s)) → n = variant).
Proof.
  intros Hq.
  induction variant as [|v IH]; intros attempts s Hvar Hpos; [lia|].
  cbn [retry_loop]. unfold try_catch. rewrite attempt_unfold.
  destruct (attempt_result (network s !! 0%nat)) as [data|error] eqn:Hfirst.
  - exists 1%nat. cbn [fst snd after_fetch trace clock cache cacheManager retry_trace].
    split_ands; try done; try (unfold RETRY_DELAY_MS; lia);
      try (intros i Hi; lia).
    intros [e He]. discriminate.
  - rewrite (Qeq_bool_inject (attempts + 1) m) by done.
    destruct (attempts + 1 =? m) eqn:Hlast.
    + apply Z.eqb_eq in Hlast. assert (v = 0%nat) as -> by lia.
      exists 1%nat. unfold throw.
      cbn [fst snd after_fetch trace clock cache cacheManager retry_trace].
      split_ands; try done; try (unfold RETRY_DELAY_MS; lia);
        try (intros i Hi; lia).
    + apply Z.eqb_neq in Hlast.
      unfold bind, waitFor.
      set (s2 := {| clock := clock (after_fetch url s) + RETRY_DELAY_MS;
                    cache := cache (after_fetch url s);
                    cacheManager := cacheManager (after_fetch url s);
                    settings := settings (after_fetch url s);
                    network := network (after_fetch url s);
                    trace := trace (after_fetch url s) ++ [EvWait RETRY_DELAY_MS] |}).
      destruct (IH (attempts + 1) s2) as (n & Hn & Htr & Hck & Hc & Hm & Hfail & Hres & Hthrow);
        [lia|lia|].
      exists (S n).
      rewrite Htr, Hck, Hc, Hm, Hres.
      cbn [s2 after_fetch trace clock cache cacheManager settings network].
      split; [lia|]. split.
      { rewrite retry_trace_step by lia. by rewrite <- !app_assoc. }
      split; [unfold RETRY_DELAY_MS; lia|].
      split; [done|]. split; [done|]. split.
      { intros i Hi. destruct i as [|j].
        - rewrite Hfirst. by exists error.
        - specialize (Hfail j). cbn [s2 after_fetch network] in Hfail.
          rewrite lookup_tail in Hfail. apply Hfail. lia. }
      split.
      { rewrite lookup_tail. f_equal. f_equal. lia. }
      intros Hthr. assert (n = v); [|lia].
      apply Hthrow. rewrite Hres. exact Hthr.
Qed.

Lemma retry_trace_fetches url hs n :
  length (filter (λ e, is_fetch e = true) (retry_trace url hs n)) = n.
Proof.
  induction n as [|[|k] IH]; [done|done|].
  rewrite retry_trace_step by lia.
  rewrite filter_cons_True by done. rewrite filter_cons_False by done.
  cbn [length]. by rewrite IH.
Qed.

Lemma retry_trace_waits url hs n :
  filter (λ e, is_wait e = true) (retry_trace url hs n)
  = replicate (n - 1) (EvWait 2000).
Proof.
  induction n as [|[|k] IH]; [done|done|].
  rewrite retry_trace_step by lia.
  rewrite filter_cons_False by done. rewrite filter_cons_True by done.
  rewrite IH. cbn. by rewrite Nat.sub_0_r.
Qed.

(** C3, as the code has it.  With [maxRetries] an integer of at least 1
    (3 unless the constructor is given another number), [fetchWithRetry]
    makes [n] attempts, [1 <= n <= maxRetries]: the trace it adds is [n]
    fetches of the URL with one wait of exactly [RETRY_DELAY_MS = 2000] ms
    after each attempt but the last, every attempt before the last failed,
    and the call completes as the last attempt does.  It throws only when
    the attempts are used up, and when the first [maxRetries] answers of
    the network all fail it throws the error of attempt number
    [maxRetries]. *)
Theorem fetchWithRetry_policy this url s (m : Z) :
  (maxRetries this == inject_Z m)%Q →
  1 ≤ m →
  ∃ n : nat,
    (1 ≤ n)%nat ∧ Z.of_nat n ≤ m
    ∧ trace (snd (fetchWithRetry this url s))
      = trace s ++ retry_trace url (request_headers (settings s)) n
    ∧ length (filter (λ e, is_fetch e = true)
                (retry_trace url (request_headers (settings s)) n)) = n
    ∧ filter (λ e, is_wait e = true)
        (retry_trace url (request_headers (settings s)) n)
      = replicate (n - 1) (EvWait 2000)
    ∧ clock (snd (fetchWithRetry this url s))
      = clock s + 2000 * (Z.of_nat n - 1)
    ∧ (∀ i, (i < n - 1)%nat → is_throw (attempt_result (network s !! i)))
    ∧ fst (fetchWithRetry this url s)
      = attempt_result (network s !! (n - 1)%nat)
    ∧ (is_throw (fst (fetchWithRetry this url s)) → Z.of_nat n = m)
    ∧ ((∀ i, Z.of_nat i < m →
             is_throw (attempt_result (network s !! i))) →
       fst (fetchWithRetry this url s)
       = attempt_result (network s !! (Z.to_nat m - 1)%nat)
       ∧ is_throw (fst (fetchWithRetry this url s)))
    ∧ DEFAULT_MAX_RETRIES = inject_Z 3
    ∧ (∀ symbols s0,
         maxRetries_of (fst (BirdeyeProvider_new symbols None s0))
         = Some (inject_Z 3)).
Proof.
  intros Hq Hpos. unfold fetchWithRetry.
  rewrite (Qceiling_inject m) by done.
  destruct (retry_loop_spec this url m (Z.to_nat (m - 0)) Hq 0 s)
    as (n & Hn & Htr & Hck & _ & _ & Hfail & Hres & Hthrow); [lia|lia|].
  exists n. split_ands; try done; try lia.
  - apply retry_trace_fetches.
  - apply retry_trace_waits.
  - intros Hthr. specialize (Hthrow Hthr). lia.
  - intros Hall.
    assert (Hlast : is_throw (retry_loop this url (Z.to_nat (m - 0)) 0 s).1).
    { rewrite Hres. apply Hall. lia. }
    specialize (Hthrow Hlast). split; [|exact Hlast]. rewrite Hres.
    by replace (Z.to_nat m) with n by lia.
Qed.


Lemma fetchWithRetry_policy_witness :
  (maxRetries Scenario.birdeye == inject_Z 3)%Q
  ∧ 1 ≤ 3
  ∧ ∃ n : nat,
      (1 ≤ n)%nat
      ∧ trace (snd (fetchWithRetry Scenario.birdeye "u"
                      (Scenario.fresh [Scenario.server_error])))
        = retry_trace "u" (request_headers Scenario.no_settings) n.
Proof.
  assert (H1 : (maxRetries Scenario.birdeye == inject_Z 3)%Q) by reflexivity.
  assert (H2 : 1 ≤ 3) by lia.
  split; [exact H1|]. split; [exact H2|].
  destruct (fetchWithRetry_policy Scenario.birdeye "u"
              (Scenario.fresh [Scenario.server_error]) 3 H1 H2)
    as (n & Hn & _ & Htr & _).
  exists n. split; [exact Hn|exact Htr].
Defined.

(** C3 as stated fails when [maxRetries] is not an integer.  With
    [maxRetries = 2.5] and a network that keeps failing, three attempts are
    made, which is more than [maxRetries]; the delay is also waited after
    the last of them; and the call returns [undefined] where the error of
    the last attempt should have been thrown. *)
Lemma fetchWithRetry_fractional_counterexample :
  let r := fetchWithRetry Scenario.fractional "u"
             (Scenario.fresh [Scenario.server_error; Scenario.server_error;
                              Scenario.server_error;
                              Scenario.ok_response Scenario.price_data]) in
  maxRetries Scenario.fractional = (5 # 2)%Q
  ∧ count_fetches (trace (snd r)) = 3%nat
  ∧ ¬ (inject_Z 3 <= maxRetries Scenario.fractional)%Q
  ∧ trace (snd r)
    = [EvFetch "u" (request_headers Scenario.no_settings); EvWait 2000;
       EvFetch "u" (request_headers Scenario.no_settings); EvWait 2000;
       EvFetch "u" (request_headers Scenario.no_settings); EvWait 2000]
  ∧ fst r = Normal JUndefined
  ∧ attempt_result (Some Scenario.server_error)
    = Throw (Error "HTTP error! status: 500, message: down").
Proof.
  split; [reflexivity|]. split; [reflexivity|]. split.
  - intros Hle. vm_compute in Hle. by apply Hle.
  - split; [reflexivity|]. split; reflexivity.
Qed.

(** A [maxRetries] that is not positive admits no iteration: nothing is
    fetched and the call returns [undefined]. *)
Lemma fetchWithRetry_nonpositive this url s :
  (maxRetries this <= 0)%Q →
  fetchWithRetry this url s = (Normal JUndefined, s).
Proof.
  intros Hle. unfold fetchWithRetry.
  apply Qceiling_resp_le in Hle. change (Qceiling 0) with 0 in Hle.
  by replace (Z.to_nat (Qceiling (maxRetries this) - 0)) with 0%nat by lia.
Qed.

(** The loop gives the data of the first attempt that succeeds while the
    guard still holds, whatever number [maxRetries] is. *)
Lemma retry_loop_first_success this url (k : nat) :
  ∀ variant attempts s data,
    (k < variant)%nat →
    (inject_Z (attempts + Z.of_nat k) < maxRetries this)%Q →
    (∀ i, (i < k)%nat → is_throw (attempt_result (network s !! i))) →
    attempt_result (network s !! k) = Normal data →
    fst (retry_loop this url variant attempts s) = Normal data
    ∧ trace (snd (retry_loop this url variant attempts s))
      = trace s ++ retry_trace url (request_headers (settings s)) (S k)
    ∧ clock (snd (retry_loop this url variant attempts s))
      = clock s + RETRY_DELAY_MS * Z.of_nat k.
Proof.
  induction k as [|k IH]; intros variant attempts s data Hvar Hlt Hfail Hok;
    (destruct variant as [|v]; [lia|]);
    cbn [retry_loop]; unfold try_catch; rewrite attempt_unfold.
  - rewrite Hok. cbn [fst snd after_fetch trace clock retry_trace].
    split_ands; try done. unfold RETRY_DELAY_MS. lia.
  - destruct (Hfail 0%nat) as [error Herr]; [lia|]. rewrite Herr.
    rewrite Qeq_bool_below.
    2:{ eapply Qle_lt_trans; [|exact Hlt]. rewrite <- Zle_Qle. lia. }
    unfold bind, waitFor.
    match goal with
    | |- context [retry_loop this url v (attempts + 1) ?s2] =>
        destruct (IH v (attempts + 1) s2 data) as (Hres & Htr & Hck)
    end.
    + lia.
    + replace (attempts + 1 + Z.of_nat k) with (attempts + Z.of_nat (S k))
        by lia. exact Hlt.
    + intros i Hi. cbn [network after_fetch]. rewrite lookup_tail.
      apply Hfail. lia.
    + cbn [network after_fetch]. by rewrite lookup_tail.
    + rewrite Hres, Htr, Hck.
      cbn [after_fetch trace clock settings].
      split_ands; try done.
      * rewrite (retry_trace_step _ _ (S k)) by lia. by rewrite <- !app_assoc.
      * unfold RETRY_DELAY_MS. lia.
Qed.

(** Three failures in a row: three fetches, two waits, and the third
    error is thrown. *)
Example fetchWithRetry_three_failures :
  let r := fetchWithRetry Scenario.birdeye "u"
             (Scenario.fresh [Scenario.server_error; FetchRejects (Error "reset");
                              Scenario.server_error; Scenario.ok_response JNull]) in
  fst r = Throw (Error "HTTP error! status: 500, message: down")
  ∧ trace (snd r)
    = [EvFetch "u" (request_headers Scenario.no_settings); EvWait 2000;
       EvFetch "u" (request_headers Scenario.no_settings); EvWait 2000;
       EvFetch "u" (request_headers Scenario.no_settings)]
  ∧ clock (snd r) = 5000.
Proof. vm_compute. done. Qed.

(** A failure and then an answer: the data is returned after one wait. *)
Example fetchWithRetry_second_attempt :
  let r := fetchWithRetry Scenario.birdeye "u"
             (Scenario.fresh [Scenario.server_error;
                              Scenario.ok_response Scenario.price_data]) in
  fst r = Normal Scenario.price_data
  ∧ length (filter (λ e, is_fetch e = true) (trace (snd r))) = 2%nat.
Proof. vm_compute. done. Qed.

End BirdeyeRetry.

Section BirdeyeFetch.

Import Js Eff Birdeye.

Lemma retry_loop_no_cache this url variant :
  ∀ attempts s,
    cache (snd (retry_loop this url variant attempts s)) = cache s
    ∧ cacheManager (snd (retry_loop this url variant attempts s))
      = cacheManager s
    ∧ ∃ evs, trace (snd (retry_loop this url variant attempts s))
             = trace s ++ evs
             ∧ no_cache_access evs.
Proof.
  induction variant as [|v IH]; intros attempts s.
  - cbn. split_ands; try done. exists []. split; [by rewrite app_nil_r|constructor].
  - cbn [retry_loop]. unfold try_catch. rewrite attempt_unfold.
    destruct (attempt_result (network s !! 0%nat)) as [data|error].
    + cbn. split_ands; try done. eexists. split; [done|]. by repeat constructor.
    + destruct (Qeq_bool (inject_Z (attempts + 1)) (maxRetries this)).
      * cbn. split_ands; try done. eexists. split; [done|]. by repeat constructor.
      * unfold bind, waitFor.
        match goal with
        | |- context [retry_loop this url v (attempts + 1) ?s2] =>
            destruct (IH (attempts + 1) s2) as (Hc & Hm & evs & Htr & Hev)
        end.
        rewrite Hc, Hm, Htr. cbn [cache cacheManager trace after_fetch].
        split_ands; try done.
        exists (EvFetch url (request_headers (settings s))
                  :: EvWait RETRY_DELAY_MS :: evs).
        split; [by rewrite <- !app_assoc|]. by repeat constructor.
Qed.

(** The outcome of the loop is decided by the network alone. *)
Lemma retry_loop_network this url variant :
  ∀ attempts s1 s2,
    network s1 = network s2 →
    fst (retry_loop this url variant attempts s1)
    = fst (retry_loop this url variant attempts s2).
Proof.
  induction variant as [|v IH]; intros attempts s1 s2 Hnet; [done|].
  cbn [retry_loop]. unfold try_catch. rewrite !attempt_unfold, Hnet.
  destruct (attempt_result (network s2 !! 0%nat)) as [data|error]; [done|].
  destruct (Qeq_bool (inject_Z (attempts + 1)) (maxRetries this)); [done|].
  unfold bind, waitFor. apply IH. cbn. by rewrite Hnet.
Qed.

Lemma getUrlByType_kind k address s :
  ∃ path, lookup_endpoint (kind_name k) ENDPOINT_MAP = Some path
          ∧ getUrlByType (kind_name k) address s
            = (Normal (API_BASE_URL +:+ path +:+ address), s).
Proof. destruct k; eexists; split; reflexivity. Qed.

Lemma fetchByAddress_unfold k this address s :
  ∃ path, lookup_endpoint (kind_name k) ENDPOINT_MAP = Some path
          ∧ fetchByAddress k this address s
            = fetchWithRetry this (API_BASE_URL +:+ path +:+ address) s.
Proof. destruct k; eexists; split; reflexivity. Qed.

(** C1, as the code has it.  For every data kind and address the fetch
    operation builds the URL [API_BASE_URL + ENDPOINT_MAP[kind] + address]
    and hands it to [fetchWithRetry]; it reads neither cache tier, leaves
    both as they were, and its result does not depend on what they hold. *)
Theorem fetchByAddress_bypasses_cache k this address s :
  ∃ path,
    lookup_endpoint (kind_name k) ENDPOINT_MAP = Some path
    ∧ fetchByAddress k this address s
      = fetchWithRetry this (API_BASE_URL +:+ path +:+ address) s
    ∧ cache (snd (fetchByAddress k this address s)) = cache s
    ∧ cacheManager (snd (fetchByAddress k this address s)) = cacheManager s
    ∧ (∃ evs, trace (snd (fetchByAddress k this address s)) = trace s ++ evs
              ∧ no_cache_access evs)
    ∧ (∀ c m,
         fst (fetchByAddress k this address
                {| clock := clock s; cache := c; cacheManager := m;
                   settings := settings s; network := network s;
                   trace := trace s |})
         = fst (fetchByAddress k this address s)).
Proof.
  destruct (fetchByAddress_unfold k this address s) as (path & Hpath & Heq).
  exists path. split; [done|]. split; [done|]. rewrite Heq.
  unfold fetchWithRetry.
  destruct (retry_loop_no_cache this (API_BASE_URL +:+ path +:+ address)
              (Z.to_nat (Qceiling (maxRetries this) - 0)) 0 s)
    as (Hc & Hm & Hev).
  split_ands; try done.
  intros c m.
  destruct (fetchByAddress_unfold k this address
              {| clock := clock s; cache := c; cacheManager := m;
                 settings := settings s; network := network s;
                 trace := trace s |}) as (path' & Hpath' & Heq').
  rewrite Heq'. assert (path' = path) as -> by congruence.
  unfold fetchWithRetry. by apply retry_loop_network.
Qed.

(** C1 as stated fails: with both tiers empty and the network answering,
    the price is fetched and returned, yet no cache was read before the
    request and nothing was written to either tier after it. *)
Lemma fetchByAddress_cache_counterexample :
  let s := Scenario.fresh [Scenario.ok_response Scenario.price_data] in
  let r := fetchByAddress Price Scenario.birdeye Scenario.SOL s in
  fst r = Normal Scenario.price_data
  ∧ trace (snd r)
    = [EvFetch "https://public-api.birdeye.so/defi/price?address=So11111111111111111111111111111111111111112"
         (request_headers Scenario.no_settings)]
  ∧ data_of (cache (snd r)) = ∅
  ∧ cacheManager (snd r) = ∅
  ∧ fst (readFromCache Scenario.birdeye "price/So11111111111111111111111111111111111111112"
           (snd r)) = Normal JUndefined.
Proof. vm_compute. done. Qed.

End BirdeyeFetch.

Section BirdeyeGet.

Import Js Eff Birdeye.


Lemma BirdeyeProvider_new_default s :
  BirdeyeProvider_new None None s
  = (Normal default_provider, with_cache (NodeCache.create 300) s).
Proof. reflexivity. Qed.



(** A wallet and an answering network: the summary of the portfolio. *)
Example birdeyeProvider_get_summary :
  fst (birdeyeProvider_get (Scenario.runtime_with (Some "W4LL3T"))
         (Scenario.fresh [Scenario.server_error;
                          Scenario.ok_response (JArr [JNum 1; JNum 2])]))
  = Normal "Birdeye wallet addr: W4LL3T, portfolio: 1,2".
Proof. vm_compute. reflexivity. Qed.

(** A wallet and a network that fails three times: the fallback. *)
Example birdeyeProvider_get_fallback :
  fst (birdeyeProvider_get (Scenario.runtime_with (Some "W4LL3T"))
         (Scenario.fresh [Scenario.server_error; Scenario.server_error;
                          Scenario.server_error;
                          Scenario.ok_response Scenario.price_data]))
  = Normal FALLBACK.
Proof. vm_compute. reflexivity. Qed.

End BirdeyeGet.

Section Strings.

Lemma append_cons a s t : String a s +:+ t = String a (s +:+ t).
Proof. reflexivity. Qed.

Lemma append_nil_l s : "" +:+ s = s.
Proof. reflexivity. Qed.

Lemma append_nil_r s : s +:+ "" = s.
Proof. induction s as [|a s IH]; [done|]. by rewrite append_cons, IH. Qed.

Lemma append_assoc s t u : (s +:+ t) +:+ u = s +:+ (t +:+ u).
Proof.
  induction s as [|a s IH]; [done|]. by rewrite !append_cons, IH.
Qed.

Lemma occurs_in_refl s : Goat.occurs_in s s.
Proof. exists "", "". by rewrite append_nil_l, append_nil_r. Qed.

Lemma occurs_in_app_l x s pre : Goat.occurs_in x s → Goat.occurs_in x (pre +:+ s).
Proof.
  intros (b & a & ->). exists (pre +:+ b), a. by rewrite append_assoc.
Qed.

Lemma occurs_in_app_r x s post : Goat.occurs_in x s → Goat.occurs_in x (s +:+ post).
Proof.
  intros (b & a & ->). exists b, (a +:+ post). by rewrite !append_assoc.
Qed.

Lemma occurs_in_concat sep x l :
  In x l → Goat.occurs_in x (String.concat sep l).
Proof.
  induction l as [|y l IH]; [done|]. intros [->|Hin].
  - destruct l as [|z l]; [apply occurs_in_refl|].
    cbn [String.concat]. apply occurs_in_app_r, occurs_in_refl.
  - destruct l as [|z l]; [done|].
    cbn [String.concat]. apply occurs_in_app_l, occurs_in_app_l. by apply IH.
Qed.

End Strings.

Section GoatValidation.

Import Js Eff Goat.

Lemma missingSettings_unfold getSetting :
  missingSettings getSetting
  = (if unset (getSetting "WALLET_PUBLIC_KEY")
     then ["WALLET_PUBLIC_KEY (Solana wallet public key)"] else [])
    ++ (if unset (getSetting "DEXSCREENER_WATCHLIST_ID")
        then ["DEXSCREENER_WATCHLIST_ID (DexScreener watchlist ID)"] else [])
    ++ (if unset (getSetting "COINGECKO_API_KEY")
        then ["COINGECKO_API_KEY (CoinGecko API key)"] else []).
Proof.
  unfold missingSettings. cbn [fold_left REQUIRED_SETTINGS fst].
  destruct (unset (getSetting "WALLET_PUBLIC_KEY")),
           (unset (getSetting "DEXSCREENER_WATCHLIST_ID")),
           (unset (getSetting "COINGECKO_API_KEY")); reflexivity.
Qed.

Lemma missingSettings_complete getSetting entry :
  In entry REQUIRED_SETTINGS →
  unset (getSetting (fst entry)) = true →
  In (describe entry) (missingSettings getSetting).
Proof.
  rewrite missingSettings_unfold.
  intros [<-|[<-|[<-|[]]]] Hun; cbn [fst] in Hun; rewrite Hun;
    rewrite !in_app_iff.
  - left. left. reflexivity.
  - right. left. left. reflexivity.
  - right. right. left. reflexivity.
Qed.

Lemma missingSettings_none getSetting :
  (∀ entry, In entry REQUIRED_SETTINGS → unset (getSetting (fst entry)) = false) →
  missingSettings getSetting = [].
Proof.
  intros Hall. rewrite missingSettings_unfold.
  rewrite (Hall ("WALLET_PUBLIC_KEY", _)) by (left; reflexivity).
  rewrite (Hall ("DEXSCREENER_WATCHLIST_ID", _)) by (right; left; reflexivity).
  rewrite (Hall ("COINGECKO_API_KEY", _)) by (right; right; left; reflexivity).
  reflexivity.
Qed.

End GoatValidation.

Section GoatCreate.

Import Js Eff Goat.

Lemma createGoatPlugin_reaches_solana sdk getSetting runtime :
  missingSettings getSetting = [] →
  ∃ rest,
    snd (createGoatPlugin sdk getSetting runtime [])
    = EvLog "Starting GOAT plugin initialization"
        :: EvLog "Initializing Solana connection..." :: rest.
Proof.
  intros Hnone.
  unfold createGoatPlugin, initSolana, initTwitter, try_catch, bind, emit,
    lift, throw, ret.
  rewrite Hnone. cbn [length Nat.ltb Nat.leb app].
  repeat (step_match; cbn [fst snd app]); eexists; reflexivity.
Qed.

Lemma createGoatPlugin_missing sdk getSetting runtime :
  missingSettings getSetting ≠ [] →
  createGoatPlugin sdk getSetting runtime []
  = (Throw (Error (errorMsg (missingSettings getSetting))),
     [EvLog "Starting GOAT plugin initialization";
      EvLogError (errorMsg (missingSettings getSetting))]).
Proof.
  intros Hsome. unfold createGoatPlugin, bind, emit, throw.
  destruct (missingSettings getSetting) as [|m ms]; [done|]. reflexivity.
Qed.

(** C5.  [createGoatPlugin] validates the settings first.  If any of
    [WALLET_PUBLIC_KEY], [DEXSCREENER_WATCHLIST_ID], [COINGECKO_API_KEY] is
    unset or empty it throws ["Missing required settings: ..."], a message
    in which every missing setting occurs with its description, having
    logged only the start of the initialisation and that message: no
    connection, public key, Twitter configuration or action was built.
    If all three are set, the list of missing settings is empty and the
    run goes on to the initialisation of the Solana connection. *)
Theorem createGoatPlugin_validates sdk getSetting runtime :
  let r := createGoatPlugin sdk getSetting runtime [] in
  let msg := errorMsg (missingSettings getSetting) in
  ((∃ entry, In entry REQUIRED_SETTINGS
             ∧ unset (getSetting (fst entry)) = true) →
     fst r = Throw (Error msg)
     ∧ snd r = [EvLog "Starting GOAT plugin initialization"; EvLogError msg]
     ∧ filter (λ e, is_init e = true) (snd r) = []
     ∧ ∀ entry, In entry REQUIRED_SETTINGS →
                unset (getSetting (fst entry)) = true →
                occurs_in (describe entry) msg ∧ occurs_in (fst entry) msg)
  ∧ ((∀ entry, In entry REQUIRED_SETTINGS →
               unset (getSetting (fst entry)) = false) →
     missingSettings getSetting = []
     ∧ ∃ rest,
         snd r = EvLog "Starting GOAT plugin initialization"
                   :: EvLog "Initializing Solana connection..." :: rest).
Proof.
  intros r msg. subst r msg. split.
  - intros (entry & Hin & Hun).
    assert (Hsome : missingSettings getSetting ≠ []).
    { pose proof (missingSettings_complete getSetting entry Hin Hun) as Hm.
      intros Heq. by rewrite Heq in Hm. }
    rewrite (createGoatPlugin_missing sdk getSetting runtime Hsome).
    cbn [fst snd]. split_ands; try done.
    intros e He Hu.
    pose proof (missingSettings_complete getSetting e He Hu) as Hm.
    assert (Hocc : occurs_in (describe e) (errorMsg (missingSettings getSetting))).
    { unfold errorMsg. apply occurs_in_app_l. by apply occurs_in_concat. }
    split; [exact Hocc|].
    destruct Hocc as (before & after & Heq). rewrite Heq.
    exists before, (" (" +:+ snd e +:+ ")" +:+ after).
    unfold describe. by rewrite !append_assoc.
  - intros Hall. pose proof (missingSettings_none getSetting Hall) as Hnone.
    split; [exact Hnone|].
    by apply createGoatPlugin_reaches_solana.
Qed.

Lemma createGoatPlugin_validates_witness :
  (∃ entry, In entry REQUIRED_SETTINGS
            ∧ unset (Scenario.wallet_only (fst entry)) = true)
  ∧ fst (createGoatPlugin Scenario.good_sdk Scenario.wallet_only None [])
    = Throw (Error "Missing required settings: DEXSCREENER_WATCHLIST_ID (DexScreener watchlist ID), COINGECKO_API_KEY (CoinGecko API key)")
  ∧ (∀ entry, In entry REQUIRED_SETTINGS →
              unset (Scenario.all_required (fst entry)) = false)
  ∧ missingSettings Scenario.all_required = [].
Proof.
  assert (H1 : ∃ entry, In entry REQUIRED_SETTINGS
                        ∧ unset (Scenario.wallet_only (fst entry)) = true).
  { exists ("COINGECKO_API_KEY", "CoinGecko API key").
    split; [right; right; left; reflexivity|reflexivity]. }
  assert (H2 : ∀ entry, In entry REQUIRED_SETTINGS →
                        unset (Scenario.all_required (fst entry)) = false).
  { intros entry [<-|[<-|[<-|[]]]]; reflexivity. }
  split; [exact H1|]. split.
  - exact (proj1 (proj1 (createGoatPlugin_validates Scenario.good_sdk
                           Scenario.wallet_only None) H1)).
  - split; [exact H2|].
    exact (proj1 (proj2 (createGoatPlugin_validates Scenario.good_sdk
                           Scenario.all_required None) H2)).
Defined.

(** All three settings present and the SDKs willing: the plugin is built. *)
Example createGoatPlugin_builds :
  fst (createGoatPlugin Scenario.good_sdk Scenario.all_required None [])
  = Normal {| name := "[GOAT] Onchain Actions with Solana Integration";
              description := "Autonomous trading integration";
              evaluators := ["trustEvaluator"];
              providers := ["walletProvider"; "trustScoreProvider"];
              actions := ["SWAP"];
              services := [] |}.
Proof. reflexivity. Qed.

End GoatCreate.

Section XmtpReply.

Import Js Eff Xmtp.

Lemma onMessage_trace send message user tr :
  snd (onMessage send message user tr)
  = tr ++ [EvConsoleLog ("Decoded message: " +:+ to_string message
                         +:+ " by " +:+ to_string user);
           EvSend "Your AI response here"].
Proof.
  unfold onMessage, bind, emit, lift. cbn [snd].
  destruct (send "Your AI response here"); cbn [snd]; by rewrite <- app_assoc.
Qed.

(** C8.  The handler that [startXmtpClient] registers sends one reply per
    incoming message, and that reply is the string
    ["Your AI response here"] whatever the message and whoever the user. *)
Theorem onMessage_static_reply send EVM_PRIVATE_KEY message user :
  ∃ handler,
    fst (startXmtpClient send EVM_PRIVATE_KEY []) = Normal handler
    ∧ sent (snd (handler message user [])) = ["Your AI response here"]
    ∧ ∀ message' user',
        sent (snd (handler message' user' []))
        = sent (snd (handler message user [])).
Proof.
  exists (onMessage send). split; [reflexivity|].
  split; [by rewrite onMessage_trace|].
  intros message' user'. by rewrite !onMessage_trace.
Qed.

End XmtpReply.

Section SwapHandler.

Import Js Eff YakSwap.

Ltac run_handler :=
  unfold handler, isSwapContent, something_went_wrong, call_back,
    try_catch, bind, emit, lift, throw, ret;
  repeat (step_match; cbn [fst snd app calls omap call_of]).

Lemma strict_eq_str_true v s : strict_eq_str v s = true → v = JStr s.
Proof.
  destruct v; try discriminate. cbn. intros H. by apply String.eqb_eq in H as ->.
Qed.

Lemma handler_calls_prefix env has_state has_callback :
  calls (snd (handler env has_state has_callback [])) `prefix_of` CALL_ORDER.
Proof.
  run_handler; by eexists.
Qed.

Lemma handler_swap_after_approval env has_state has_callback :
  Swap ∈ calls (snd (handler env has_state has_callback [])) →
  ∃ content fromToken amount tx receipt,
    generateObject env = Normal content
    ∧ get_field content "fromTokenAddress" = Normal fromToken
    ∧ get_field content "amount" = Normal amount
    ∧ approve env fromToken yakRouterAddress amount = Normal tx
    ∧ truthy tx = true
    ∧ getTxReceipt env tx = Normal receipt
    ∧ get_field receipt "status" = Normal (JStr "success").
Proof.
  run_handler; intros Hin;
    first
      [ by (apply list_elem_of_In in Hin; cbn in Hin; intuition discriminate)
      | repeat match goal with
               | H : strict_eq_str _ "success" = true |- _ =>
                   apply strict_eq_str_true in H; subst
               end;
        do 5 eexists; split_ands; first [eassumption | reflexivity] ].
Qed.

Lemma handler_full_swap env (has_state has_callback : bool)
      fields fromToken toToken amount quote tx receipt swapTx receipt' status' :
  (if has_state then updateRecentMessageState env else composeState env)
  = Normal tt →
  generateObject env = Normal (JObj fields) →
  assoc "fromTokenAddress" fields = JStr fromToken →
  assoc "toTokenAddress" fields = JStr toToken →
  is_type (assoc "recipient" fields) "string"
  || negb (truthy (assoc "recipient" fields)) = true →
  assoc "amount" fields = amount →
  is_type amount "string" || is_type amount "number" = true →
  fromToken ≠ ZERO_ADDRESS →
  toToken ≠ ZERO_ADDRESS →
  getQuote env (JStr fromToken) (JStr toToken) amount = Normal quote →
  approve env (JStr fromToken) yakRouterAddress amount = Normal tx →
  truthy tx = true →
  getTxReceipt env tx = Normal receipt →
  get_field receipt "status" = Normal (JStr "success") →
  swap env quote = Normal swapTx →
  truthy swapTx = true →
  getTxReceipt env swapTx = Normal receipt' →
  get_field receipt' "status" = Normal status' →
  fst (handler env has_state has_callback []) = Normal true
  ∧ calls (snd (handler env has_state has_callback [])) = CALL_ORDER
  ∧ filter (λ e, is_Some (call_of e)) (snd (handler env has_state has_callback []))
    = [EvGenerateObject;
       EvGetQuote (JStr fromToken) (JStr toToken) amount;
       EvApprove (JStr fromToken) yakRouterAddress amount;
       EvGetTxReceipt tx;
       EvSwap quote;
       EvGetTxReceipt swapTx].
Proof.
  intros Hstate Hgen Hfrom Hto Hrecipient Hamount Hnum Hnz Hnz'
    Hquote Happrove Htx Hreceipt Hstatus Hswap HswapTx Hreceipt' Hstatus'.
  apply String.eqb_neq in Hnz, Hnz'.
  unfold handler, isSwapContent, something_went_wrong, call_back,
    try_catch, bind, emit, lift, throw, ret.
  rewrite Hgen. cbn [get_field]. rewrite Hfrom, Hto, Hamount.
  rewrite Hrecipient, Hnum. cbn [is_type typeof strict_eq_str negb].
  rewrite Hnz, Hnz', Hquote, Happrove, Htx, Hreceipt, Hstatus.
  cbn [strict_eq_str]. rewrite Hswap, HswapTx, Hreceipt', Hstatus'.
  destruct has_state, has_callback; rewrite Hstate;
    destruct (strict_eq_str status' "success"); done.
Qed.

(** C6, as the code has it.  The calls that leave the handler come in
    the order generation, quote, approval, receipt, swap, receipt: every
    run makes an initial part of that sequence, so the request is parsed
    by [generateObject] before anything else and the quote is fetched
    before the approval.  A swap is issued only when the approval gave a
    transaction whose receipt has status ["success"].  When the generated
    content is a valid swap between two tokens neither of which is the
    zero address and every call succeeds, the whole sequence is made, on
    the generated parameters, and the handler returns [true]. *)
Theorem handler_call_order env (has_state has_callback : bool) :
  let r := handler env has_state has_callback [] in
  calls (snd r) `prefix_of` [Generate; Quote; Approve; Receipt; Swap; Receipt]
  ∧ (Swap ∈ calls (snd r) →
     ∃ content fromToken amount tx receipt,
       generateObject env = Normal content
       ∧ get_field content "fromTokenAddress" = Normal fromToken
       ∧ get_field content "amount" = Normal amount
       ∧ approve env fromToken yakRouterAddress amount = Normal tx
       ∧ truthy tx = true
       ∧ getTxReceipt env tx = Normal receipt
       ∧ get_field receipt "status" = Normal (JStr "success"))
  ∧ (∀ fields fromToken toToken amount quote tx receipt swapTx receipt' status',
       (if has_state then updateRecentMessageState env else composeState env)
       = Normal tt →
       generateObject env = Normal (JObj fields) →
       assoc "fromTokenAddress" fields = JStr fromToken →
       assoc "toTokenAddress" fields = JStr toToken →
       is_type (assoc "recipient" fields) "string"
       || negb (truthy (assoc "recipient" fields)) = true →
       assoc "amount" fields = amount →
       is_type amount "string" || is_type amount "number" = true →
       fromToken ≠ ZERO_ADDRESS →
       toToken ≠ ZERO_ADDRESS →
       getQuote env (JStr fromToken) (JStr toToken) amount = Normal quote →
       approve env (JStr fromToken) yakRouterAddress amount = Normal tx →
       truthy tx = true →
       getTxReceipt env tx = Normal receipt →
       get_field receipt "status" = Normal (JStr "success") →
       swap env quote = Normal swapTx →
       truthy swapTx = true →
       getTxReceipt env swapTx = Normal receipt' →
       get_field receipt' "status" = Normal status' →
       fst r = Normal true
       ∧ calls (snd r) = [Generate; Quote; Approve; Receipt; Swap; Receipt]
       ∧ filter (λ e, is_Some (call_of e)) (snd r)
         = [EvGenerateObject;
            EvGetQuote (JStr fromToken) (JStr toToken) amount;
            EvApprove (JStr fromToken) yakRouterAddress amount;
            EvGetTxReceipt tx;
            EvSwap quote;
            EvGetTxReceipt swapTx]).
Proof.
  intros r. subst r. split; [apply handler_calls_prefix|].
  split; [apply handler_swap_after_approval|].
  intros. by eapply handler_full_swap.
Qed.

Lemma handler_call_order_witness :
  let r := handler (Scenario.swap_env Scenario.usdc_for_yak) false true [] in
  Swap ∈ calls (snd r)
  ∧ ∃ content fromToken amount tx receipt,
      generateObject (Scenario.swap_env Scenario.usdc_for_yak) = Normal content
      ∧ get_field content "fromTokenAddress" = Normal fromToken
      ∧ get_field content "amount" = Normal amount
      ∧ approve (Scenario.swap_env Scenario.usdc_for_yak)
          fromToken yakRouterAddress amount = Normal tx
      ∧ truthy tx = true
      ∧ getTxReceipt (Scenario.swap_env Scenario.usdc_for_yak) tx = Normal receipt
      ∧ get_field receipt "status" = Normal (JStr "success").
Proof.
  assert (Hin : Swap ∈ calls (snd (handler (Scenario.swap_env Scenario.usdc_for_yak)
                                     false true []))).
  { apply list_elem_of_In. vm_compute. tauto. }
  split; [exact Hin|].
  exact (proj1 (proj2 (handler_call_order
                         (Scenario.swap_env Scenario.usdc_for_yak) false true))
           Hin).
Defined.

(** C6 as stated fails on the order: in a complete, successful swap of
    USDC for gmYAK the quote is requested before the approval, and no
    quote is requested after it. *)
Lemma handler_quote_first_counterexample :
  let r := handler (Scenario.swap_env Scenario.usdc_for_yak) false true [] in
  fst r = Normal true
  ∧ calls (snd r) = [Generate; Quote; Approve; Receipt; Swap; Receipt]
  ∧ occurs_before Approve Quote (calls (snd r)) = false
  ∧ occurs_before Quote Approve (calls (snd r)) = true.
Proof. vm_compute. done. Qed.

End SwapHandler.

Section PathJoin.

Import Path.

Lemma split_slash_namespace key :
  split_slash ("birdeye/data" +:+ "/" +:+ key)
  = "birdeye" :: "data" :: split_slash key.
Proof. reflexivity. Qed.

Lemma push_segment_keeps b stack seg :
  seg ≠ ".." → ∃ kept, push_segment b stack seg = kept ++ stack.
Proof.
  intros Hseg. apply String.eqb_neq in Hseg. unfold push_segment.
  rewrite Hseg.
  destruct (String.eqb seg ""); [by exists []|].
  destruct (String.eqb seg "."); [by exists []|].
  by exists [seg].
Qed.

Lemma fold_push_keeps b segs :
  Forall (λ seg, seg ≠ "..") segs →
  ∀ stack, ∃ kept,
    fold_left (push_segment b) segs stack = kept ++ stack.
Proof.
  induction 1 as [|seg segs Hseg _ IH]; intros stack; [by exists []|].
  cbn [fold_left].
  destruct (push_segment_keeps b stack seg Hseg) as [k1 ->].
  destruct (IH (k1 ++ stack)) as [k2 ->].
  exists (k2 ++ k1). by rewrite app_assoc.
Qed.

Lemma prefix_nil s : String.prefix "" s = true.
Proof. by destruct s. Qed.

Lemma concat_namespace l :
  ∃ rest,
    String.concat "/" ("birdeye" :: "data" :: l) = "birdeye/data" +:+ rest
    ∧ (rest = "" ∨ ∃ more, rest = "/" +:+ more).
Proof.
  destruct l as [|x l].
  - exists "". split; [reflexivity|by left].
  - exists ("/" +:+ String.concat "/" (x :: l)). split; [reflexivity|].
    right. by eexists.
Qed.

Lemma in_namespace_below more :
  in_namespace "birdeye/data" ("birdeye/data" +:+ "/" +:+ more) = true.
Proof.
  unfold in_namespace. apply orb_true_iff. right.
  change (String.prefix "" more = true). apply prefix_nil.
Qed.

(** Under the namespace of the provider, a key without [".."] segments
    stays below ["birdeye/data"]. *)
Lemma join_in_namespace key :
  no_dotdot key → in_namespace "birdeye/data" (join "birdeye/data" key) = true.
Proof.
  intros Hkey. unfold join.
  change (String.eqb "birdeye/data" "") with false. cbv iota.
  destruct (String.eqb key "") eqn:Hempty; [reflexivity|].
  unfold normalize.
  change (String.eqb ("birdeye/data" +:+ "/" +:+ key) "") with false.
  change (starts_with_slash ("birdeye/data" +:+ "/" +:+ key)) with false.
  cbv iota zeta. cbn [negb]. unfold normalizeString.
  rewrite split_slash_namespace. cbn [fold_left].
  change (push_segment true [] "birdeye") with ["birdeye"].
  change (push_segment true ["birdeye"] "data") with ["data"; "birdeye"].
  destruct (fold_push_keeps true (split_slash key) Hkey ["data"; "birdeye"])
    as [kept ->].
  rewrite rev_app_distr. cbn [rev app].
  destruct (concat_namespace (rev kept)) as (rest & -> & Hrest).
  assert (Hne : String.eqb ("birdeye/data" +:+ rest) "" = false) by reflexivity.
  rewrite Hne.
  destruct Hrest as [->|[more ->]].
  - destruct (ends_with_slash ("birdeye/data" +:+ "/" +:+ key)); reflexivity.
  - destruct (ends_with_slash ("birdeye/data" +:+ "/" +:+ key)).
    + rewrite !append_assoc. apply in_namespace_below.
    + apply in_namespace_below.
Qed.

End PathJoin.

Section BirdeyeNamespace.

Import Js Eff Birdeye.

Lemma CacheManager_get_elsewhere store now path p :
  p ≠ path → snd (CacheManager.get store now path) !! p = store !! p.
Proof.
  intros Hne. unfold CacheManager.get.
  destruct (store !! path) as [entry|]; [|done].
  destruct (CacheManager.alive now entry); [done|].
  cbn [snd]. by apply lookup_delete_ne.
Qed.

Lemma readFsCache_unfold this key s :
  readFsCache this key s
  = (Normal (fs_value this s key),
     {| clock := clock s; cache := cache s;
        cacheManager :=
          snd (CacheManager.get (cacheManager s) (clock s)
                 (Path.join (cacheKey this) key));
        settings := settings s; network := network s;
        trace := trace s ++ [EvFsGet (Path.join (cacheKey this) key)] |}).
Proof.
  unfold readFsCache, cacheManager_get, fs_value, bind, emit, set_cacheManager, ret.
  by destruct (CacheManager.get (cacheManager s) (clock s)
                 (Path.join (cacheKey this) key)).
Qed.

Lemma writeFsCache_unfold this key data s :
  writeFsCache this key data s
  = (Normal tt,
     {| clock := clock s; cache := cache s;
        cacheManager :=
          CacheManager.set (cacheManager s) (Path.join (cacheKey this) key)
            data (clock s + 5 * 60 * 1000);
        settings := settings s; network := network s;
        trace := trace s ++ [EvFsSet (Path.join (cacheKey this) key) data
                               (clock s + 5 * 60 * 1000)] |}).
Proof. reflexivity. Qed.

(** C7, as the code has it.  [readFsCache] and [writeFsCache] address
    one entry of the cache manager, the one at [path.join(cacheKey, key)],
    and leave every other entry as it was; [BirdeyeProvider] fixes
    [cacheKey] to ["birdeye/data"]; and for a key none of whose segments
    is [".."] that entry is ["birdeye/data"] or lies below it. *)
Theorem fs_cache_namespace this key data s :
  let path := Path.join (cacheKey this) key in
  trace (snd (readFsCache this key s)) = trace s ++ [EvFsGet path]
  ∧ (∀ p, p ≠ path →
          cacheManager (snd (readFsCache this key s)) !! p = cacheManager s !! p)
  ∧ trace (snd (writeFsCache this key data s))
    = trace s ++ [EvFsSet path data (clock s + 5 * 60 * 1000)]
  ∧ (∀ p, p ≠ path →
          cacheManager (snd (writeFsCache this key data s)) !! p
          = cacheManager s !! p)
  ∧ (∀ symbols retries s0,
       cacheKey_of (fst (BirdeyeProvider_new symbols retries s0))
       = Some "birdeye/data")
  ∧ (Path.no_dotdot key →
     Path.in_namespace "birdeye/data" (Path.join "birdeye/data" key) = true).
Proof.
  intros path. subst path.
  rewrite readFsCache_unfold, writeFsCache_unfold. cbn [snd trace cacheManager].
  split_ands; try done.
  - intros p Hp. by apply CacheManager_get_elsewhere.
  - intros p Hp. unfold CacheManager.set. by apply lookup_insert_ne.
  - apply join_in_namespace.
Qed.

Lemma fs_cache_namespace_witness :
  Path.no_dotdot "price/So1"
  ∧ Path.in_namespace "birdeye/data" (Path.join "birdeye/data" "price/So1")
    = true.
Proof.
  assert (H : Path.no_dotdot "price/So1").
  { unfold Path.no_dotdot. cbn. repeat constructor; discriminate. }
  split; [exact H|].
  exact (proj2 (proj2 (proj2 (proj2 (proj2
           (fs_cache_namespace Scenario.birdeye "price/So1" JNull
              (Scenario.fresh [])))))) H).
Defined.

(** C7 as stated fails: the key ["../../x"] makes both operations
    address the entry ["x"], which is not under ["birdeye/data"]. *)
Lemma fs_cache_escape_counterexample :
  let s := Scenario.fresh [] in
  Path.join (cacheKey Scenario.birdeye) "../../x" = "x"
  ∧ trace (snd (readFsCache Scenario.birdeye "../../x" s)) = [EvFsGet "x"]
  ∧ trace (snd (writeFsCache Scenario.birdeye "../../x" (JNum 1) s))
    = [EvFsSet "x" (JNum 1) 301000]
  ∧ cacheManager (snd (writeFsCache Scenario.birdeye "../../x" (JNum 1) s)) !! "x"
    = Some (JNum 1, 301000)
  ∧ Path.in_namespace "birdeye/data" "x" = false.
Proof. vm_compute. done. Qed.

Example path_join_plain :
  Path.join "birdeye/data" "price/So1" = "birdeye/data/price/So1".
Proof. reflexivity. Qed.

Example path_join_dots :
  Path.join "birdeye/data" "./a//b/../c/" = "birdeye/data/a/c/".
Proof. reflexivity. Qed.

End BirdeyeNamespace.

(** * Further properties of the Birdeye provider *)

Section BirdeyeSymbols.

Import Js Eff Birdeye.

(** [fetchPriceBySymbol], [fetchTokenSecurityBySymbol] and
    [fetchTokenTradeDataBySymbol] resolve the symbol first.  A symbol
    mapped to a non-empty address is fetched exactly as that address is;
    a symbol that is absent (and not an inherited key) or mapped to the
    empty string throws "Unsupported symbol ... in Birdeye provider" and
    leaves the state untouched: no request is made. *)
Theorem fetchBySymbol_resolves this symbol s :
  (∀ addr, symbolMap this !! symbol = Some addr → addr ≠ "" →
     fetchPriceBySymbol this symbol s = fetchPriceByAddress this addr s
     ∧ fetchTokenSecurityBySymbol this symbol s
       = fetchTokenSecurityByAddress this addr s
     ∧ fetchTokenTradeDataBySymbol this symbol s
       = fetchTokenTradeDataByAddress this addr s)
  ∧ (symbol ∉ OBJECT_PROTOTYPE_KEYS →
     symbolMap this !! symbol = None ∨ symbolMap this !! symbol = Some "" →
     fetchPriceBySymbol this symbol s = (Throw (unsupported symbol), s)
     ∧ fetchTokenSecurityBySymbol this symbol s = (Throw (unsupported symbol), s)
     ∧ fetchTokenTradeDataBySymbol this symbol s
       = (Throw (unsupported symbol), s)).
Proof.
  unfold fetchPriceBySymbol, fetchTokenSecurityBySymbol,
    fetchTokenTradeDataBySymbol, getTokenAddress, bind.
  split.
  - intros addr Hsym Haddr. rewrite Hsym.
    apply String.eqb_neq in Haddr. rewrite Haddr. done.
  - intros _ [Hsym|Hsym]; rewrite Hsym; done.
Qed.

Lemma fetchBySymbol_resolves_witness :
  symbolMap Scenario.birdeye !! "SOL" = Some Scenario.SOL
  ∧ Scenario.SOL ≠ ""
  ∧ fetchPriceBySymbol Scenario.birdeye "SOL" (Scenario.fresh [])
    = fetchPriceByAddress Scenario.birdeye Scenario.SOL (Scenario.fresh [])
  ∧ ("DOGE" ∉ OBJECT_PROTOTYPE_KEYS)
  ∧ fetchPriceBySymbol Scenario.birdeye "DOGE" (Scenario.fresh [])
    = (Throw (unsupported "DOGE"), Scenario.fresh []).
Proof.
  assert (H1 : symbolMap Scenario.birdeye !! "SOL" = Some Scenario.SOL)
    by reflexivity.
  assert (H2 : Scenario.SOL ≠ "") by discriminate.
  assert (H3 : "DOGE" ∉ OBJECT_PROTOTYPE_KEYS).
  { intros Hin. apply list_elem_of_In in Hin. cbn in Hin.
    intuition discriminate. }
  split; [exact H1|]. split; [exact H2|]. split.
  - exact (proj1 (proj1 (fetchBySymbol_resolves Scenario.birdeye "SOL"
                           (Scenario.fresh [])) Scenario.SOL H1 H2)).
  - split; [exact H3|].
    exact (proj1 (proj2 (fetchBySymbol_resolves Scenario.birdeye "DOGE"
                           (Scenario.fresh [])) H3 (or_introl eq_refl))).
Defined.

(** [getUrlByType] knows the four endpoint types and no other: for
    these it gives [API_BASE_URL] followed by the endpoint path and the
    address, for any other type (inherited keys apart) it throws, in both
    cases without touching the state. *)
Theorem getUrlByType_supported type address s :
  (type ∈ ["price"; "security"; "volume"; "portfolio"] →
   ∃ path, lookup_endpoint type ENDPOINT_MAP = Some path
           ∧ getUrlByType type address s
             = (Normal (API_BASE_URL +:+ path +:+ address), s))
  ∧ (type ∉ OBJECT_PROTOTYPE_KEYS →
     type ∉ ["price"; "security"; "volume"; "portfolio"] →
     getUrlByType type address s = (Throw (unsupported type), s)).
Proof.
  split.
  - intros Hin. apply list_elem_of_In in Hin.
    destruct Hin as [<-|[<-|[<-|[<-|[]]]]]; eexists; split; reflexivity.
  - intros _ Hnot. unfold getUrlByType, ENDPOINT_MAP, lookup_endpoint.
    destruct (String.eqb_spec type "price") as [->|_];
      [exfalso; apply Hnot; set_solver|].
    destruct (String.eqb_spec type "security") as [->|_];
      [exfalso; apply Hnot; set_solver|].
    destruct (String.eqb_spec type "volume") as [->|_];
      [exfalso; apply Hnot; set_solver|].
    destruct (String.eqb_spec type "portfolio") as [->|_];
      [exfalso; apply Hnot; set_solver|].
    reflexivity.
Qed.

Lemma getUrlByType_supported_witness :
  "volume" ∈ ["price"; "security"; "volume"; "portfolio"]
  ∧ (∃ path, lookup_endpoint "volume" ENDPOINT_MAP = Some path
             ∧ getUrlByType "volume" "A" (Scenario.fresh [])
               = (Normal (API_BASE_URL +:+ path +:+ "A"), Scenario.fresh []))
  ∧ getUrlByType "candles" "A" (Scenario.fresh [])
    = (Throw (unsupported "candles"), Scenario.fresh []).
Proof.
  assert (H1 : "volume" ∈ ["price"; "security"; "volume"; "portfolio"]).
  { apply list_elem_of_In. cbn. tauto. }
  split; [exact H1|]. split.
  - exact (proj1 (getUrlByType_supported "volume" "A" (Scenario.fresh [])) H1).
  - apply (proj2 (getUrlByType_supported "candles" "A" (Scenario.fresh []))).
    + intros Hin. apply list_elem_of_In in Hin. cbn in Hin.
      intuition discriminate.
    + intros Hin. apply list_elem_of_In in Hin. cbn in Hin.
      intuition discriminate.
Defined.

End BirdeyeSymbols.

Section BirdeyeRetryMore.

Import Js Eff Birdeye.

(** The call returns the data of the first attempt that succeeds, if
    that attempt is among those that [maxRetries] admits: it has then made
    one request per attempt up to that one, with one wait of 2000 ms
    between each two.  This holds for every number [maxRetries], integer
    or not. *)
Theorem fetchWithRetry_first_success this url s (k : nat) data :
  (inject_Z (Z.of_nat k) < maxRetries this)%Q →
  (∀ i, (i < k)%nat → is_throw (attempt_result (network s !! i))) →
  attempt_result (network s !! k) = Normal data →
  fst (fetchWithRetry this url s) = Normal data
  ∧ trace (snd (fetchWithRetry this url s))
    = trace s ++ retry_trace url (request_headers (settings s)) (S k)
  ∧ clock (snd (fetchWithRetry this url s)) = clock s + 2000 * Z.of_nat k.
Proof.
  intros Hk Hfail Hok. unfold fetchWithRetry.
  apply retry_loop_first_success; try done.
  assert (Hc : Z.of_nat k < Qceiling (maxRetries this)).
  { rewrite Zlt_Qlt. eapply Qlt_le_trans; [exact Hk|apply Qle_ceiling]. }
  lia.
Qed.

Lemma fetchWithRetry_first_success_witness :
  (inject_Z (Z.of_nat 1) < maxRetries Scenario.fractional)%Q
  ∧ fst (fetchWithRetry Scenario.fractional "u"
           (Scenario.fresh [Scenario.server_error;
                            Scenario.ok_response Scenario.price_data]))
    = Normal Scenario.price_data.
Proof.
  assert (H : (inject_Z (Z.of_nat 1) < maxRetries Scenario.fractional)%Q)
    by reflexivity.
  split; [exact H|].
  apply (fetchWithRetry_first_success Scenario.fractional "u"
           (Scenario.fresh [Scenario.server_error;
                            Scenario.ok_response Scenario.price_data])
           1%nat Scenario.price_data H).
  - intros i Hi. assert (i = 0%nat) as -> by lia. eexists. reflexivity.
  - reflexivity.
Defined.

(** A negative [maxRetries] given to the constructor is kept, and then
    no fetch operation makes a request: each returns [undefined] and
    leaves the state as it was.  [0] is replaced by the default, so
    retrying cannot be switched off by passing [0]. *)
Theorem BirdeyeProvider_retries symbols (n : Q) s0 :
  ∃ this,
    fst (BirdeyeProvider_new symbols (Some n) s0) = Normal this
    ∧ ((n < 0)%Q → ∀ k address s,
         fetchByAddress k this address s = (Normal JUndefined, s))
    ∧ ((n == 0)%Q → maxRetries this = inject_Z 3)
    ∧ ((0 < n)%Q → maxRetries this = n).
Proof.
  eexists. split; [reflexivity|]. cbn [maxRetries]. split_ands.
  - intros Hn k address s.
    destruct (fetchByAddress_unfold k
      {| cacheKey := "birdeye/data";
         symbolMap := default DEFAULT_SUPPORTED_SYMBOLS symbols;
         maxRetries := if Qeq_bool n 0 then DEFAULT_MAX_RETRIES else n |}
      address s) as (path & _ & ->).
    apply fetchWithRetry_nonpositive. cbn [maxRetries].
    destruct (Qeq_bool n 0) eqn:Hz.
    + apply Qeq_bool_eq in Hz. rewrite Hz in Hn. by apply Qlt_irrefl in Hn.
    + by apply Qlt_le_weak.
  - intros Hz. by rewrite (Qeq_eq_bool _ _ Hz).
  - intros Hn. destruct (Qeq_bool n 0) eqn:Hz; [|done].
    apply Qeq_bool_eq in Hz. rewrite Hz in Hn. by apply Qlt_irrefl in Hn.
Qed.

Lemma BirdeyeProvider_retries_witness :
  (inject_Z (-1) < 0)%Q
  ∧ ∃ this,
      fst (BirdeyeProvider_new None (Some (inject_Z (-1))) (Scenario.fresh []))
      = Normal this
      ∧ fetchByAddress Price this Scenario.SOL
          (Scenario.fresh [Scenario.ok_response Scenario.price_data])
        = (Normal JUndefined,
           Scenario.fresh [Scenario.ok_response Scenario.price_data]).
Proof.
  assert (H : (inject_Z (-1) < 0)%Q) by reflexivity.
  split; [exact H|].
  destruct (BirdeyeProvider_retries None (inject_Z (-1)) (Scenario.fresh []))
    as (this & Hnew & Hneg & _).
  exists this. split; [exact Hnew|]. by apply Hneg.
Defined.

End BirdeyeRetryMore.

Section BirdeyeCacheMore.

Import Js Eff Birdeye.

Lemma readFromCache_result this key s :
  fst (readFromCache this key s)
  = Normal (if truthy (mem_value s key) then mem_value s key
            else fs_value this s key).
Proof.
  rewrite readFromCache_unfold. unfold mem_value, fs_value.
  destruct (NodeCache.get (cache s) (clock s) key) as [val c].
  cbn [fst]. destruct (truthy val); [done|].
  destruct (CacheManager.get (cacheManager s) (clock s)
              (Path.join (cacheKey this) key)) as [fsVal m].
  cbn [fst]. by destruct (truthy fsVal).
Qed.

Lemma NodeCache_get_stdTTL c now key :
  NodeCache.stdTTL (snd (NodeCache.get c now key)) = NodeCache.stdTTL c.
Proof.
  unfold NodeCache.get. destruct (NodeCache.data c !! key) as [entry|]; [|done].
  by destruct (NodeCache.alive now entry).
Qed.

(** Read-through: after a read that missed the in-memory tier and found
    a truthy value in the file-backed tier, a further read of the same
    key, made while the in-memory entry is alive, is answered by the
    in-memory tier alone; the cache manager is not consulted again. *)
Theorem readFromCache_populates this key s t' :
  truthy (mem_value s key) = false →
  truthy (fs_value this s key) = true →
  mem_alive_until (cache s) (clock s) t' →
  let s1 := at_time t' (snd (readFromCache this key s)) in
  fst (readFromCache this key s1) = Normal (fs_value this s key)
  ∧ trace (snd (readFromCache this key s1)) = trace s1 ++ [EvMemGet key]
  ∧ cacheManager (snd (readFromCache this key s1)) = cacheManager s1.
Proof.
  intros Hmem Hfs Halive s1. subst s1.
  rewrite (readFromCache_unfold this key s).
  unfold mem_value, fs_value, mem_alive_until, stdTTL_of in *.
  pose proof (NodeCache_get_stdTTL (cache s) (clock s) key) as Httl.
  destruct (NodeCache.get (cache s) (clock s) key) as [val c].
  destruct (CacheManager.get (cacheManager s) (clock s)
              (Path.join (cacheKey this) key)) as [fsVal m].
  cbn [fst snd] in *. rewrite Hmem, Hfs. cbn [snd].
  rewrite readFromCache_unfold. unfold at_time.
  cbn [clock cache cacheManager trace settings network].
  assert (Hget : NodeCache.get (NodeCache.set c (clock s) key fsVal) t' key
                 = (fsVal, NodeCache.set c (clock s) key fsVal)).
  { unfold NodeCache.get, NodeCache.set. cbn [NodeCache.data NodeCache.stdTTL].
    rewrite lookup_insert_eq.
    unfold NodeCache.alive, NodeCache.wrap. cbn [fst snd]. rewrite Httl.
    destruct Halive as [H0|Hle].
    - rewrite H0. reflexivity.
    - destruct (NodeCache.stdTTL (cache s) =? 0); [reflexivity|].
      replace (clock s + NodeCache.stdTTL (cache s) * 1000 <? t') with false
        by (symmetry; apply Z.ltb_ge; lia).
      by rewrite andb_false_r. }
  rewrite Hget, Hfs. done.
Qed.

Lemma readFromCache_populates_witness :
  let s := Scenario.stale_zero in
  truthy (mem_value s "k") = false
  ∧ truthy (fs_value Scenario.birdeye s "k") = true
  ∧ mem_alive_until (cache s) (clock s) 2000
  ∧ trace (snd (readFromCache Scenario.birdeye "k"
                  (at_time 2000 (snd (readFromCache Scenario.birdeye "k" s)))))
    = trace (at_time 2000 (snd (readFromCache Scenario.birdeye "k" s)))
        ++ [EvMemGet "k"].
Proof.
  assert (H3 : mem_alive_until (cache Scenario.stale_zero)
                 (clock Scenario.stale_zero) 2000).
  { right. vm_compute. discriminate. }
  split; [reflexivity|]. split; [reflexivity|]. split; [exact H3|].
  exact (proj1 (proj2 (readFromCache_populates Scenario.birdeye "k"
                         Scenario.stale_zero 2000 eq_refl eq_refl H3))).
Defined.

(** Keys are independent: writing one key does not change what a read of
    another key returns, provided the two keys differ and are not joined
    to the same path of the file-backed tier. *)
Theorem writeToCache_other_key this key key' v s :
  key ≠ key' →
  Path.join (cacheKey this) key ≠ Path.join (cacheKey this) key' →
  fst (readFromCache this key' (snd (writeToCache this key v s)))
  = fst (readFromCache this key' s).
Proof.
  intros Hkey Hpath. rewrite !readFromCache_result, writeToCache_unfold.
  cbn [snd].
  assert (Hm : mem_value
                 {| clock := clock s;
                    cache := NodeCache.set (cache s) (clock s) key v;
                    cacheManager :=
                      CacheManager.set (cacheManager s)
                        (Path.join (cacheKey this) key) v
                        (clock s + 5 * 60 * 1000);
                    settings := settings s; network := network s;
                    trace := trace s ++
                      [EvMemSet key v;
                       EvFsSet (Path.join (cacheKey this) key) v
                         (clock s + 5 * 60 * 1000)] |} key'
               = mem_value s key').
  { unfold mem_value, NodeCache.get, NodeCache.set.
    cbn [clock cache NodeCache.data NodeCache.stdTTL].
    rewrite lookup_insert_ne by done.
    destruct (NodeCache.data (cache s) !! key') as [entry|]; [|done].
    by destruct (NodeCache.alive (clock s) entry). }
  assert (Hf : fs_value this
                 {| clock := clock s;
                    cache := NodeCache.set (cache s) (clock s) key v;
                    cacheManager :=
                      CacheManager.set (cacheManager s)
                        (Path.join (cacheKey this) key) v
                        (clock s + 5 * 60 * 1000);
                    settings := settings s; network := network s;
                    trace := trace s ++
                      [EvMemSet key v;
                       EvFsSet (Path.join (cacheKey this) key) v
                         (clock s + 5 * 60 * 1000)] |} key'
               = fs_value this s key').
  { unfold fs_value, CacheManager.get, CacheManager.set.
    cbn [clock cacheManager].
    rewrite lookup_insert_ne by done.
    destruct (cacheManager s !! Path.join (cacheKey this) key') as [entry|];
      [|done].
    by destruct (CacheManager.alive (clock s) entry). }
  by rewrite Hm, Hf.
Qed.

Lemma writeToCache_other_key_witness :
  "a" ≠ "b"
  ∧ Path.join (cacheKey Scenario.birdeye) "a"
    ≠ Path.join (cacheKey Scenario.birdeye) "b"
  ∧ fst (readFromCache Scenario.birdeye "b"
           (snd (writeToCache Scenario.birdeye "a" (JNum 1) (Scenario.fresh []))))
    = fst (readFromCache Scenario.birdeye "b" (Scenario.fresh [])).
Proof.
  assert (H1 : "a" ≠ "b") by discriminate.
  assert (H2 : Path.join (cacheKey Scenario.birdeye) "a"
               ≠ Path.join (cacheKey Scenario.birdeye) "b")
    by (vm_compute; discriminate).
  split; [exact H1|]. split; [exact H2|].
  exact (writeToCache_other_key Scenario.birdeye "a" "b" (JNum 1)
           (Scenario.fresh []) H1 H2).
Defined.

(** Two different keys that [path.join] sends to the same path share
    their entry of the file-backed tier: what was written under ["a"] is
    read back under ["./a"]. *)
Example writeToCache_aliased_keys :
  fst (readFromCache Scenario.birdeye "./a"
         (snd (writeToCache Scenario.birdeye "a" (JNum 1) (Scenario.fresh []))))
  = Normal (JNum 1)
  ∧ fst (readFromCache Scenario.birdeye "./a" (Scenario.fresh []))
    = Normal JUndefined.
Proof. vm_compute. done. Qed.

(** Expiry: with the default [stdTTL] of 300 seconds, a value written at
    a non-negative instant is gone from both tiers once more than five
    minutes have passed; the read returns [undefined], which is what the
    cache manager resolves to for an expired entry, and removes the two
    dead entries. *)
Theorem readFromCache_after_expiry this key v s t' :
  stdTTL_of (cache s) = 300 →
  0 ≤ clock s →
  clock s + 5 * 60 * 1000 < t' →
  let s1 := at_time t' (snd (writeToCache this key v s)) in
  fst (readFromCache this key s1) = Normal JUndefined
  ∧ data_of (cache (snd (readFromCache this key s1))) !! key = None
  ∧ cacheManager (snd (readFromCache this key s1))
      !! Path.join (cacheKey this) key = None.
Proof.
  intros Httl Hclock Hlate s1. subst s1.
  rewrite writeToCache_unfold. cbn [snd]. rewrite readFromCache_unfold.
  unfold at_time. cbn [clock cache cacheManager trace settings network].
  unfold stdTTL_of in Httl.
  assert (Hmem : NodeCache.get (NodeCache.set (cache s) (clock s) key v) t' key
                 = (JUndefined,
                    {| NodeCache.stdTTL := NodeCache.stdTTL (cache s);
                       NodeCache.data :=
                         delete key (<[key := NodeCache.wrap (cache s) (clock s) v]>
                                       (NodeCache.data (cache s))) |})).
  { unfold NodeCache.get, NodeCache.set. cbn [NodeCache.data NodeCache.stdTTL].
    rewrite lookup_insert_eq. unfold NodeCache.alive, NodeCache.wrap.
    cbn [fst snd]. rewrite Httl. cbn [Z.eqb].
    replace (clock s + 300 * 1000 =? 0) with false
      by (symmetry; apply Z.eqb_neq; lia).
    replace (clock s + 300 * 1000 <? t') with true
      by (symmetry; apply Z.ltb_lt; lia).
    reflexivity. }
  assert (Hfs : CacheManager.get
                  (CacheManager.set (cacheManager s)
                     (Path.join (cacheKey this) key) v (clock s + 5 * 60 * 1000))
                  t' (Path.join (cacheKey this) key)
                = (JUndefined,
                   delete (Path.join (cacheKey this) key)
                     (CacheManager.set (cacheManager s)
                        (Path.join (cacheKey this) key) v
                        (clock s + 5 * 60 * 1000)))).
  { unfold CacheManager.get, CacheManager.set. rewrite lookup_insert_eq.
    unfold CacheManager.alive. cbn [fst snd].
    replace (clock s + 5 * 60 * 1000 =? 0) with false
      by (symmetry; apply Z.eqb_neq; lia).
    replace (t' <? clock s + 5 * 60 * 1000) with false
      by (symmetry; apply Z.ltb_ge; lia).
    reflexivity. }
  rewrite Hmem. cbn [truthy]. rewrite Hfs. cbn [truthy fst snd cache cacheManager].
  split_ands; try done.
  - unfold data_of. cbn [NodeCache.data]. apply lookup_delete_eq.
  - apply lookup_delete_eq.
Qed.

Lemma readFromCache_after_expiry_witness :
  let s := Scenario.fresh [] in
  stdTTL_of (cache s) = 300
  ∧ 0 ≤ clock s
  ∧ clock s + 5 * 60 * 1000 < 301001
  ∧ fst (readFromCache Scenario.birdeye "k"
           (at_time 301001
              (snd (writeToCache Scenario.birdeye "k" (JNum 5) s))))
    = Normal JUndefined.
Proof.
  split; [reflexivity|]. split; [discriminate|]. split; [reflexivity|].
  apply (readFromCache_after_expiry Scenario.birdeye "k" (JNum 5)
           (Scenario.fresh []) 301001); [reflexivity|discriminate|reflexivity].
Defined.

(** At the very instant of expiry the two tiers disagree: the in-memory
    entry is still served while the file-backed entry is already dead. *)
Example readFromCache_at_expiry :
  let s1 v := at_time 301000
                (snd (writeToCache Scenario.birdeye "k" v (Scenario.fresh []))) in
  fst (readFromCache Scenario.birdeye "k" (s1 (JNum 5))) = Normal (JNum 5)
  ∧ fst (readFromCache Scenario.birdeye "k" (s1 (JNum 0)))
    = Normal JUndefined.
Proof. vm_compute. done. Qed.

End BirdeyeCacheMore.

Section BirdeyeGetMore.

Import Js Eff Birdeye.

Lemma count_fetches_app evs evs' :
  count_fetches (evs ++ evs') = (count_fetches evs + count_fetches evs')%nat.
Proof. unfold count_fetches. by rewrite filter_app, length_app. Qed.

(** One call of [birdeyeProvider.get] makes at most three HTTP requests
    and waits at most 4000 ms, never reads or writes the cache manager,
    and makes no request at all when [BIRDEYE_WALLET_ADDR] is unset or
    empty. *)
Theorem birdeyeProvider_get_effects runtime s :
  let s' := snd (birdeyeProvider_get runtime s) in
  cacheManager s' = cacheManager s
  ∧ clock s ≤ clock s' ≤ clock s + 4000
  ∧ (∃ evs, trace s' = trace s ++ evs ∧ (count_fetches evs ≤ 3)%nat)
  ∧ (∀ w, getSetting runtime "BIRDEYE_WALLET_ADDR" = Normal w →
          no_wallet w = true →
          network s' = network s
          ∧ trace s' = trace s
                       ++ [EvConsole "warn" "No Birdeye wallet was specified"]).
Proof.
  intros s'. assert (Hs' : s' = snd (birdeyeProvider_get runtime s)) by done.
  clearbody s'. revert Hs'.
  unfold birdeyeProvider_get, try_catch.
  unfold bind at 1. rewrite BirdeyeProvider_new_default.
  unfold bind at 1. unfold lift at 1.
  set (s1 := with_cache (NodeCache.create 300) s).
  destruct (getSetting runtime "BIRDEYE_WALLET_ADDR") as [[addr|]|e] eqn:Hget.
  - destruct (String.eqb addr "") eqn:Haddr.
    + intros ->. cbn. split_ands; try done; try lia.
      exists [EvConsole "warn" "No Birdeye wallet was specified"].
      split; [done|]. by apply Nat.leb_le.
    + unfold bind at 1.
      change (fetchWalletPortfolio default_provider addr s1)
        with (retry_loop default_provider
                (API_BASE_URL +:+ "/v1/wallet/token_list?wallet=" +:+ addr)
                3 0 s1).
      destruct (retry_loop_spec default_provider
                  (API_BASE_URL +:+ "/v1/wallet/token_list?wallet=" +:+ addr)
                  3 3 (Qeq_refl _) 0 s1) as (n & Hn & Htr & Hck & _ & Hm & _);
        [reflexivity|lia|].
      destruct (retry_loop default_provider
                  (API_BASE_URL +:+ "/v1/wallet/token_list?wallet=" +:+ addr)
                  3 0 s1) as [[portfolio|e] s2].
      * intros ->. cbn [fst snd ret] in *. rewrite Hm, Hck, Htr.
        cbn [s1 with_cache cacheManager clock trace settings].
        split_ands; try done; try (unfold RETRY_DELAY_MS; lia).
        -- eexists. split; [done|]. unfold count_fetches.
           rewrite retry_trace_fetches. lia.
        -- intros w Hw Hno. injection Hw as <-. cbn in Hno. congruence.
      * intros ->. cbn [fst snd ret bind emit cacheManager clock trace] in *.
        rewrite Hm, Hck, Htr.
        cbn [s1 with_cache cacheManager clock trace settings].
        split_ands; try done; try (unfold RETRY_DELAY_MS; lia).
        -- eexists. split; [by rewrite <- app_assoc|].
           rewrite count_fetches_app. unfold count_fetches at 1.
           rewrite retry_trace_fetches.
           change (count_fetches [EvConsole "error" "Error fetching token data:"])
             with 0%nat. lia.
        -- intros w Hw Hno. injection Hw as <-. cbn in Hno. congruence.
  - intros ->. cbn. split_ands; try done; try lia.
    exists [EvConsole "warn" "No Birdeye wallet was specified"].
    split; [done|]. by apply Nat.leb_le.
  - intros ->. cbn. split_ands; try done; try lia.
    exists [EvConsole "error" "Error fetching token data:"].
    split; [done|]. by apply Nat.leb_le.
Qed.

Lemma birdeyeProvider_get_effects_witness :
  getSetting (Scenario.runtime_with (Some "")) "BIRDEYE_WALLET_ADDR"
  = Normal (Some "")
  ∧ no_wallet (Some "") = true
  ∧ network (snd (birdeyeProvider_get (Scenario.runtime_with (Some ""))
                    (Scenario.fresh [Scenario.server_error])))
    = [Scenario.server_error].
Proof.
  split; [reflexivity|]. split; [reflexivity|].
  exact (proj1 (proj2 (proj2 (proj2
           (birdeyeProvider_get_effects (Scenario.runtime_with (Some ""))
              (Scenario.fresh [Scenario.server_error]))))
           (Some "") eq_refl eq_refl)).
Defined.

End BirdeyeGetMore.

(** * Further properties of the GOAT plugin *)

Section GoatMore.

Import Js Eff Goat.

(** The list of missing settings is exactly the required settings that
    are unset or empty, in the order of [REQUIRED_SETTINGS]; a setting
    that is present is never named. *)
Theorem missingSettings_exact getSetting :
  missingSettings getSetting
  = map describe
      (List.filter (λ entry, unset (getSetting (fst entry))) REQUIRED_SETTINGS)
  ∧ ∀ entry, In entry REQUIRED_SETTINGS →
             unset (getSetting (fst entry)) = false →
             ¬ In (describe entry) (missingSettings getSetting).
Proof.
  assert (Heq : missingSettings getSetting
                = map describe
                    (List.filter (λ entry, unset (getSetting (fst entry)))
                       REQUIRED_SETTINGS)).
  { rewrite missingSettings_unfold. cbn [List.filter REQUIRED_SETTINGS fst].
    destruct (unset (getSetting "WALLET_PUBLIC_KEY")),
             (unset (getSetting "DEXSCREENER_WATCHLIST_ID")),
             (unset (getSetting "COINGECKO_API_KEY")); reflexivity. }
  split; [exact Heq|].
  intros entry Hin Hset Hnamed. rewrite Heq in Hnamed.
  apply in_map_iff in Hnamed as (entry' & Hdesc & Hin').
  apply filter_In in Hin' as [Hreq Hunset].
  assert (entry' = entry); [|congruence].
  destruct Hin as [<-|[<-|[<-|[]]]], Hreq as [<-|[<-|[<-|[]]]];
    first [reflexivity | discriminate Hdesc].
Qed.

Lemma missingSettings_exact_witness :
  In ("WALLET_PUBLIC_KEY", "Solana wallet public key") REQUIRED_SETTINGS
  ∧ unset (Scenario.wallet_only "WALLET_PUBLIC_KEY") = false
  ∧ ¬ In "WALLET_PUBLIC_KEY (Solana wallet public key)"
        (missingSettings Scenario.wallet_only).
Proof.
  assert (H1 : In ("WALLET_PUBLIC_KEY", "Solana wallet public key")
                 REQUIRED_SETTINGS) by (left; reflexivity).
  split; [exact H1|]. split; [reflexivity|].
  exact (proj2 (missingSettings_exact Scenario.wallet_only)
           ("WALLET_PUBLIC_KEY", "Solana wallet public key") H1 eq_refl).
Defined.

Lemma createGoatPlugin_valid sdk getSetting runtime :
  missingSettings getSetting = [] →
  createGoatPlugin sdk getSetting runtime []
  = bind (initSolana sdk getSetting runtime)
      (λ _, bind (initTwitter sdk getSetting runtime)
         (λ twitterService,
            bind (emit (EvLog "Initializing Solana plugin components..."))
              (λ _,
                 try_catch
                   (bind (emit (EvGetOnChainActions
                                  (getSetting "COINGECKO_API_KEY")
                                  ("https://api.dexscreener.com/latest/dex/watchlists/"
                                     +:+ default "undefined"
                                           (getSetting "DEXSCREENER_WATCHLIST_ID"))
                                  twitterService))
                      (λ _, bind (lift (getOnChainActions sdk))
                         (λ customActions,
                            bind (emit (EvLog "GOAT plugin initialization completed successfully"))
                              (λ _, ret (assembled sdk customActions)))))
                   (λ error,
                      bind (emit (EvLogError "Failed to initialize plugin components:"))
                        (λ _, throw (Error ("Plugin initialization failed: "
                                            +:+ message error)))))))
      [EvLog "Starting GOAT plugin initialization"].
Proof.
  intros Hnone. unfold createGoatPlugin. unfold bind at 1.
  rewrite Hnone. reflexivity.
Qed.

(** A failure of the Solana set-up (the [Connection] or the [PublicKey]
    constructor throws) is rethrown as "Solana initialization failed: "
    followed by the message of the error, and nothing that comes after it
    is started: no Twitter configuration, no Twitter client, no actions. *)
Theorem createGoatPlugin_solana_failure sdk getSetting runtime e :
  missingSettings getSetting = [] →
  Connection_new sdk (rpcUrl runtime) = Throw e
  ∨ (Connection_new sdk (rpcUrl runtime) = Normal tt
     ∧ PublicKey_new sdk (walletKey getSetting) = Throw e) →
  fst (createGoatPlugin sdk getSetting runtime [])
  = Throw (Error ("Solana initialization failed: " +:+ message e))
  ∧ List.filter after_solana (snd (createGoatPlugin sdk getSetting runtime []))
    = [].
Proof.
  intros Hnone Hfail. rewrite createGoatPlugin_valid by done.
  unfold initSolana, try_catch, bind, emit, lift, throw.
  fold (rpcUrl runtime). fold (walletKey getSetting).
  destruct Hfail as [Hc|[Hc Hk]]; rewrite Hc; [done|].
  cbn [fst snd]. rewrite Hk. done.
Qed.

Lemma createGoatPlugin_solana_failure_witness :
  let sdk := Scenario.bad_key_sdk in
  missingSettings Scenario.all_required = []
  ∧ PublicKey_new sdk (walletKey Scenario.all_required)
    = Throw (Error "Invalid public key input")
  ∧ fst (createGoatPlugin sdk Scenario.all_required None [])
    = Throw (Error "Solana initialization failed: Invalid public key input").
Proof.
  split; [reflexivity|]. split; [reflexivity|].
  exact (proj1 (createGoatPlugin_solana_failure Scenario.bad_key_sdk
                  Scenario.all_required None (Error "Invalid public key input")
                  eq_refl (or_intror (conj eq_refl eq_refl)))).
Defined.

Lemma initTwitter_total sdk getSetting runtime tr :
  ∃ b tr', initTwitter sdk getSetting runtime tr = (Normal b, tr').
Proof.
  unfold initTwitter, TwitterConfigSchema_parse, try_catch, bind, emit, lift,
    ret.
  repeat (step_match; cbn [fst snd]); by do 2 eexists.
Qed.

(** The Twitter notifier is optional: once the settings are valid, the
    Solana set-up has succeeded and [getOnChainActions] returns, the plugin
    is built whatever happens to the Twitter configuration or client.  Its
    actions are the custom actions followed by those of the Solana plugin,
    its evaluators and providers those of the Solana plugin behind the
    trust evaluator, the wallet provider and the trust score provider. *)
Theorem createGoatPlugin_twitter_optional sdk getSetting runtime customActions :
  missingSettings getSetting = [] →
  Connection_new sdk (rpcUrl runtime) = Normal tt →
  PublicKey_new sdk (walletKey getSetting) = Normal tt →
  getOnChainActions sdk = Normal customActions →
  fst (createGoatPlugin sdk getSetting runtime [])
  = Normal (assembled sdk customActions).
Proof.
  intros Hnone Hc Hk Hacts. rewrite createGoatPlugin_valid by done.
  unfold bind at 1. unfold initSolana, try_catch.
  unfold bind at 1. unfold emit at 1. cbv zeta.
  fold (rpcUrl runtime). fold (walletKey getSetting).
  unfold bind at 1. unfold emit at 1.
  unfold bind at 1. rewrite Hc. unfold lift at 1.
  unfold bind at 1. unfold emit at 1.
  unfold bind at 1. rewrite Hk. unfold lift at 1.
  unfold emit at 1. cbv beta iota.
  unfold bind at 1.
  match goal with
  | |- context [initTwitter sdk getSetting runtime ?tr] =>
      destruct (initTwitter_total sdk getSetting runtime tr) as (b & tr' & ->)
  end.
  unfold bind, emit, lift, ret. rewrite Hacts. reflexivity.
Qed.

Lemma createGoatPlugin_twitter_optional_witness :
  fst (createGoatPlugin Scenario.no_twitter_sdk Scenario.twitter_enabled
         (Some (λ _, None)) [])
  = Normal (assembled Scenario.no_twitter_sdk ["SWAP"]).
Proof.
  apply createGoatPlugin_twitter_optional; reflexivity.
Defined.

(** A failure of [getOnChainActions] is rethrown as
    "Plugin initialization failed: " followed by its message. *)
Theorem createGoatPlugin_actions_failure sdk getSetting runtime e :
  missingSettings getSetting = [] →
  Connection_new sdk (rpcUrl runtime) = Normal tt →
  PublicKey_new sdk (walletKey getSetting) = Normal tt →
  getOnChainActions sdk = Throw e →
  fst (createGoatPlugin sdk getSetting runtime [])
  = Throw (Error ("Plugin initialization failed: " +:+ message e)).
Proof.
  intros Hnone Hc Hk Hacts. rewrite createGoatPlugin_valid by done.
  unfold bind at 1. unfold initSolana, try_catch.
  unfold bind at 1. unfold emit at 1. cbv zeta.
  fold (rpcUrl runtime). fold (walletKey getSetting).
  unfold bind at 1. unfold emit at 1.
  unfold bind at 1. rewrite Hc. unfold lift at 1.
  unfold bind at 1. unfold emit at 1.
  unfold bind at 1. rewrite Hk. unfold lift at 1.
  unfold emit at 1. cbv beta iota.
  unfold bind at 1.
  match goal with
  | |- context [initTwitter sdk getSetting runtime ?tr] =>
      destruct (initTwitter_total sdk getSetting runtime tr) as (b & tr' & ->)
  end.
  unfold bind, emit, lift, ret, throw. rewrite Hacts. reflexivity.
Qed.

Lemma createGoatPlugin_actions_failure_witness :
  missingSettings Scenario.all_required = []
  ∧ getOnChainActions Scenario.no_actions_sdk
    = Throw (Error "watchlist unreachable")
  ∧ fst (createGoatPlugin Scenario.no_actions_sdk Scenario.all_required None [])
    = Throw (Error "Plugin initialization failed: watchlist unreachable").
Proof.
  split; [reflexivity|]. split; [reflexivity|].
  exact (createGoatPlugin_actions_failure Scenario.no_actions_sdk
           Scenario.all_required None (Error "watchlist unreachable")
           eq_refl eq_refl eq_refl eq_refl).
Defined.

End GoatMore.

Section GoatTwitter.

Import Js Eff Goat.

Lemma is_true_Some v : is_true v = true → v = Some "true".
Proof.
  destruct v as [x|]; [|discriminate]. cbn. intros H.
  by apply String.eqb_eq in H as ->.
Qed.

(** The Twitter client is started only if [TWITTER_ENABLED] is the
    string "true", a runtime was passed, [TWITTER_USERNAME] is a non-empty
    string, the required settings are present and the Solana set-up has
    succeeded. *)
Theorem createGoatPlugin_twitter_start sdk getSetting runtime :
  In EvTwitterStart (snd (createGoatPlugin sdk getSetting runtime [])) →
  getSetting "TWITTER_ENABLED" = Some "true"
  ∧ is_Some runtime
  ∧ (∃ username, getSetting "TWITTER_USERNAME" = Some username ∧ username ≠ "")
  ∧ missingSettings getSetting = []
  ∧ Connection_new sdk (rpcUrl runtime) = Normal tt
  ∧ PublicKey_new sdk (walletKey getSetting) = Normal tt.
Proof.
  unfold createGoatPlugin, initSolana, initTwitter, TwitterConfigSchema_parse,
    try_catch, bind, emit, lift, throw, ret.
  fold (rpcUrl runtime). fold (walletKey getSetting).
  destruct (missingSettings getSetting) as [|m ms] eqn:Hmissing;
    cbn [length Nat.ltb Nat.leb app fst snd];
    [|intros Hin; cbn in Hin; intuition discriminate].
  destruct (Connection_new sdk (rpcUrl runtime)) as [[]|e1] eqn:Hc;
    cbn [fst snd app];
    [|intros Hin; cbn in Hin; intuition discriminate].
  destruct (PublicKey_new sdk (walletKey getSetting)) as [[]|e2] eqn:Hk;
    cbn [fst snd app];
    [|intros Hin; cbn in Hin; intuition discriminate].
  destruct (getSetting "TWITTER_USERNAME") as [username|] eqn:Huser;
    cbn [fst snd app].
  - destruct (String.eqb username "") eqn:Hempty; cbn [fst snd app].
    + destruct (getOnChainActions sdk); cbn [fst snd app];
        intros Hin; cbn in Hin; intuition discriminate.
    + destruct (is_true (getSetting "TWITTER_ENABLED")) eqn:Henabled;
        cbn [fst snd app andb].
      * destruct runtime as [rt|]; cbn [bool_decide decide_rel fst snd app].
        -- intros _. split_ands; try done.
           ++ by apply is_true_Some.
           ++ exists username. split; [done|]. by apply String.eqb_neq.
        -- rewrite bool_decide_eq_false_2 by (by intros [? ?]).
           destruct (getOnChainActions sdk); cbn [fst snd app];
             intros Hin; cbn in Hin; intuition discriminate.
      * destruct (getOnChainActions sdk); cbn [fst snd app];
          intros Hin; cbn in Hin; intuition discriminate.
  - destruct (getOnChainActions sdk); cbn [fst snd app];
      intros Hin; cbn in Hin; intuition discriminate.
Qed.

Lemma createGoatPlugin_twitter_start_witness :
  In EvTwitterStart
    (snd (createGoatPlugin Scenario.no_twitter_sdk Scenario.twitter_enabled
            (Some (λ _, None)) []))
  ∧ Scenario.twitter_enabled "TWITTER_ENABLED" = Some "true".
Proof.
  assert (H : In EvTwitterStart
                (snd (createGoatPlugin Scenario.no_twitter_sdk
                        Scenario.twitter_enabled (Some (λ _, None)) []))).
  { vm_compute. tauto. }
  split; [exact H|].
  exact (proj1 (createGoatPlugin_twitter_start Scenario.no_twitter_sdk
                  Scenario.twitter_enabled (Some (λ _, None)) H)).
Defined.

End GoatTwitter.

Section TwitterAlerts.

Import Js Eff TwitterService.

(** [postTradeAlert] never rejects: it returns [true] or [false].  In
    dry-run mode nothing is sent; otherwise the formatted alert is the one
    tweet sent.  The result is [false] exactly when formatting the alert
    threw or, outside dry-run mode, when sending the tweet did. *)
Theorem postTradeAlert_never_rejects sendTweet (dryRun : bool) formatted tr :
  let r := postTradeAlert sendTweet dryRun formatted tr in
  (∃ b, fst r = Normal b
        ∧ (b = false ↔
           (∃ e, formatted = Throw e)
           ∨ (dryRun = false
              ∧ ∃ tweetContent e, formatted = Normal tweetContent
                                  ∧ sendTweet tweetContent = Throw e)))
  ∧ (dryRun = true → tweets (snd r) = tweets tr)
  ∧ (∀ tweetContent, dryRun = false → formatted = Normal tweetContent →
       tweets (snd r) = tweets tr ++ [tweetContent])
  ∧ ((∃ e, formatted = Throw e) → tweets (snd r) = tweets tr).
Proof.
  intros r. subst r.
  unfold postTradeAlert, try_catch, bind, emit, lift, ret, tweets.
  destruct formatted as [c|e]; cbn [fst snd].
  - destruct dryRun; cbn [fst snd].
    + split_ands.
      * exists true. split; [done|]. split; [discriminate|].
        intros [[e He]|[Hd _]]; discriminate.
      * intros _. rewrite omap_app. cbn. by rewrite app_nil_r.
      * discriminate.
      * intros [e He]. discriminate.
    + destruct (sendTweet c) as [[]|e] eqn:Hsend; cbn [fst snd].
      * split_ands.
        -- exists true. split; [done|]. split; [discriminate|].
           intros [[e He]|(_ & c' & e & Hc & He)]; [discriminate|].
           injection Hc as <-. congruence.
        -- discriminate.
        -- intros c' _ Hc. injection Hc as <-.
           rewrite !omap_app. cbn. by rewrite app_nil_r.
        -- intros [e He]. discriminate.
      * split_ands.
        -- exists false. split; [done|]. split; [|done].
           intros _. right. split; [done|]. by exists c, e.
        -- discriminate.
        -- intros c' _ Hc. injection Hc as <-.
           rewrite !omap_app. cbn. by rewrite app_nil_r.
        -- intros [e' He]. discriminate.
  - split_ands.
    + exists false. split; [done|]. split; [|done]. intros _. left. by exists e.
    + intros _. rewrite omap_app. cbn. by rewrite app_nil_r.
    + discriminate.
    + intros _. rewrite omap_app. cbn. by rewrite app_nil_r.
Qed.

Lemma postTradeAlert_never_rejects_witness :
  tweets (snd (postTradeAlert (λ _, Throw (Error "rate limited")) true
                 (Normal "WIF | $12.50") []))
  = [].
Proof.
  exact (proj1 (proj2 (postTradeAlert_never_rejects
                         (λ _, Throw (Error "rate limited")) true
                         (Normal "WIF | $12.50") [])) eq_refl).
Defined.

Lemma postTradeAlert_total sendTweet (dryRun : bool) formatted tr :
  ∃ b tr', postTradeAlert sendTweet dryRun formatted tr = (Normal b, tr').
Proof.
  unfold postTradeAlert, try_catch, bind, emit, lift, ret.
  destruct formatted as [c|e]; [|by do 2 eexists].
  destruct dryRun; [by do 2 eexists|].
  destruct (sendTweet c); by do 2 eexists.
Qed.

(** [tweetTrade] never rejects, whatever [postTradeAlert] meets, and does
    nothing at all when no Twitter service was built. *)
Theorem tweetTrade_never_rejects twitterService formatted tr :
  fst (tweetTrade twitterService formatted tr) = Normal tt
  ∧ (twitterService = None → snd (tweetTrade twitterService formatted tr) = tr).
Proof.
  destruct twitterService as [[sendTweet dryRun]|]; [|done].
  split; [|discriminate].
  unfold tweetTrade, bind. cbn [fst snd].
  destruct (postTradeAlert_total sendTweet dryRun formatted tr)
    as (b & tr' & ->). done.
Qed.

End TwitterAlerts.

(** * Further properties of the swap action *)

Section SwapHandlerMore.

Import Js Eff YakSwap.

Ltac run_handler :=
  unfold handler, isSwapContent, something_went_wrong, call_back,
    try_catch, bind, emit, lift, throw, ret;
  repeat (step_match; cbn [fst snd app calls omap call_of]).

(** When the handler returns [false] the generated content was not a
    valid swap: nothing but the generation was called (no quote, no
    approval, no swap), and the callback, if there is one, was last told
    that the request could not be processed. *)
Theorem handler_rejects_invalid env (has_state has_callback : bool) :
  fst (handler env has_state has_callback []) = Normal false →
  calls (snd (handler env has_state has_callback [])) = [Generate]
  ∧ (has_callback = true →
     last (snd (handler env has_state has_callback []))
     = Some (EvCallback
               "Unable to process swap request. Invalid content provided."
               (JObj [("error", JStr "Invalid swap content")]))).
Proof.
  run_handler; intros Hres; try discriminate Hres;
    (split; [reflexivity|]); first [reflexivity | discriminate].
Qed.

Lemma handler_rejects_invalid_witness :
  fst (handler (Scenario.swap_env (JStr "swap it all")) false true [])
  = Normal false
  ∧ calls (snd (handler (Scenario.swap_env (JStr "swap it all")) false true []))
    = [Generate].
Proof.
  split; [reflexivity|].
  exact (proj1 (handler_rejects_invalid
                  (Scenario.swap_env (JStr "swap it all")) false true eq_refl)).
Defined.

(** With a callback, every run that returns ends by telling the callback
    something: no completed run is silent. *)
Theorem handler_always_reports env (has_state : bool) b :
  fst (handler env has_state true []) = Normal b →
  ∃ text content,
    last (snd (handler env has_state true [])) = Some (EvCallback text content).
Proof.
  run_handler; intros Hres; try discriminate Hres; by do 2 eexists.
Qed.

Lemma handler_always_reports_witness :
  ∃ text content,
    last (snd (handler (Scenario.swap_env Scenario.usdc_for_yak) true true []))
    = Some (EvCallback text content).
Proof.
  apply (handler_always_reports (Scenario.swap_env Scenario.usdc_for_yak)
           true true).
  reflexivity.
Defined.

(** A generation that gives [null] or [undefined] makes the handler
    reject with a [TypeError], raised by the first property access of
    [isSwapContent]; no callback is told and nothing else is called. *)
Theorem handler_null_content env (has_state has_callback : bool) content :
  (if has_state then updateRecentMessageState env else composeState env)
  = Normal tt →
  generateObject env = Normal content →
  content = JNull ∨ content = JUndefined →
  fst (handler env has_state has_callback [])
  = Throw (TypeError ("Cannot read properties of " +:+ to_string content))
  ∧ calls (snd (handler env has_state has_callback [])) = [Generate]
  ∧ ∀ text c, ¬ In (EvCallback text c)
                  (snd (handler env has_state has_callback [])).
Proof.
  intros Hstate Hgen Hnull.
  unfold handler, isSwapContent, something_went_wrong, call_back,
    try_catch, bind, emit, lift, throw, ret.
  rewrite Hgen.
  destruct has_state; rewrite Hstate; cbn [fst snd app negb];
    destruct Hnull as [->| ->]; cbn [get_field fst snd];
    (split_ands; [reflexivity|reflexivity|]);
    intros text c Hin; cbn in Hin; intuition discriminate.
Qed.

Lemma handler_null_content_witness :
  fst (handler (Scenario.swap_env JNull) false true [])
  = Throw (TypeError "Cannot read properties of null").
Proof.
  exact (proj1 (handler_null_content (Scenario.swap_env JNull) false true JNull
                  eq_refl eq_refl (or_introl eq_refl))).
Defined.

(** Swaps from or to native AVAX (the zero address) are not carried out:
    the quote is fetched, nothing is approved or swapped, the callback is
    told that something went wrong, and the handler returns [true]. *)
Theorem handler_native_swap env (has_state has_callback : bool)
        fields fromToken toToken amount quote :
  (if has_state then updateRecentMessageState env else composeState env)
  = Normal tt →
  generateObject env = Normal (JObj fields) →
  assoc "fromTokenAddress" fields = JStr fromToken →
  assoc "toTokenAddress" fields = JStr toToken →
  is_type (assoc "recipient" fields) "string"
  || negb (truthy (assoc "recipient" fields)) = true →
  assoc "amount" fields = amount →
  is_type amount "string" || is_type amount "number" = true →
  fromToken = ZERO_ADDRESS ∨ toToken = ZERO_ADDRESS →
  getQuote env (JStr fromToken) (JStr toToken) amount = Normal quote →
  fst (handler env has_state has_callback []) = Normal true
  ∧ calls (snd (handler env has_state has_callback [])) = [Generate; Quote]
  ∧ (has_callback = true →
     last (snd (handler env has_state has_callback []))
     = Some (EvCallback "something went wrong"
               (JObj [("error", JStr "Swap failed")]))).
Proof.
  intros Hstate Hgen Hfrom Hto Hrecipient Hamount Hnum Hnative Hquote.
  unfold handler, isSwapContent, something_went_wrong, call_back,
    try_catch, bind, emit, lift, throw, ret.
  rewrite Hgen. cbn [get_field]. rewrite Hfrom, Hto, Hamount.
  rewrite Hrecipient, Hnum. cbn [is_type typeof strict_eq_str negb].
  rewrite Hquote.
  destruct (String.eqb fromToken ZERO_ADDRESS) eqn:Hf.
  - destruct has_state, has_callback; rewrite Hstate; done.
  - destruct Hnative as [->| ->]; [by rewrite String.eqb_refl in Hf|].
    rewrite String.eqb_refl.
    destruct has_state, has_callback; rewrite Hstate; done.
Qed.

Lemma handler_native_swap_witness :
  let content := swap_content ZERO_ADDRESS Scenario.USDC (JStr "10") in
  fst (handler (Scenario.swap_env content) false true []) = Normal true
  ∧ calls (snd (handler (Scenario.swap_env content) false true []))
    = [Generate; Quote].
Proof.
  destruct (handler_native_swap
              (Scenario.swap_env (swap_content ZERO_ADDRESS Scenario.USDC (JStr "10")))
              false true
              [("fromTokenAddress", JStr ZERO_ADDRESS);
               ("toTokenAddress", JStr Scenario.USDC);
               ("recipient", JNull);
               ("amount", JStr "10")]
              ZERO_ADDRESS Scenario.USDC (JStr "10")
              (JObj [("amounts", JArr [JNum 5; JNum 9])])
              eq_refl eq_refl eq_refl eq_refl eq_refl eq_refl eq_refl
              (or_introl eq_refl) eq_refl) as (H1 & H2 & _).
  split; [exact H1|exact H2].
Defined.

(** The handler catches nothing: an error thrown by [getQuote] rejects
    the handler with that error before anything is approved, and an error
    thrown by [approve] rejects it before anything is swapped. *)
Theorem handler_propagates_errors env (has_state has_callback : bool)
        fields fromToken toToken amount e :
  (if has_state then updateRecentMessageState env else composeState env)
  = Normal tt →
  generateObject env = Normal (JObj fields) →
  assoc "fromTokenAddress" fields = JStr fromToken →
  assoc "toTokenAddress" fields = JStr toToken →
  is_type (assoc "recipient" fields) "string"
  || negb (truthy (assoc "recipient" fields)) = true →
  assoc "amount" fields = amount →
  is_type amount "string" || is_type amount "number" = true →
  (getQuote env (JStr fromToken) (JStr toToken) amount = Throw e →
   fst (handler env has_state has_callback []) = Throw e
   ∧ calls (snd (handler env has_state has_callback [])) = [Generate; Quote])
  ∧ (∀ quote,
       getQuote env (JStr fromToken) (JStr toToken) amount = Normal quote →
       fromToken ≠ ZERO_ADDRESS → toToken ≠ ZERO_ADDRESS →
       approve env (JStr fromToken) yakRouterAddress amount = Throw e →
       fst (handler env has_state has_callback []) = Throw e
       ∧ calls (snd (handler env has_state has_callback []))
         = [Generate; Quote; Approve]).
Proof.
  intros Hstate Hgen Hfrom Hto Hrecipient Hamount Hnum.
  unfold handler, isSwapContent, something_went_wrong, call_back,
    try_catch, bind, emit, lift, throw, ret.
  rewrite Hgen. cbn [get_field]. rewrite Hfrom, Hto, Hamount.
  rewrite Hrecipient, Hnum. cbn [is_type typeof strict_eq_str negb].
  split.
  - intros ->. destruct has_state; rewrite Hstate; done.
  - intros quote -> Hnz Hnz' ->.
    apply String.eqb_neq in Hnz, Hnz'. rewrite Hnz, Hnz'.
    destruct has_state; rewrite Hstate; done.
Qed.

Lemma handler_propagates_errors_witness :
  fst (handler Scenario.no_liquidity_env false true [])
  = Throw (Error "no route found")
  ∧ calls (snd (handler Scenario.no_liquidity_env false true []))
    = [Generate; Quote].
Proof.
  exact (proj1 (handler_propagates_errors Scenario.no_liquidity_env false true
                  [("fromTokenAddress", JStr Scenario.USDC);
                   ("toTokenAddress", JStr Scenario.gmYAK);
                   ("recipient", JNull);
                   ("amount", JStr "5")]
                  Scenario.USDC Scenario.gmYAK (JStr "5")
                  (Error "no route found")
                  eq_refl eq_refl eq_refl eq_refl eq_refl eq_refl eq_refl)
           eq_refl).
Defined.

End SwapHandlerMore.
